(** * The argen generator: backend dispatch, template rendering, line mapper

    A shallow embedding of [internal/pkg/generator/generator.go]
    (package [generator] of the activerecord code generator) and the
    properties of its three cooperating parts:

    - [ErrorLine], which turns a [line:col: message] error of the
      formatter into a caret-annotated snippet of the generated text;
    - [GenerateByTmpl], which parses and executes a template behind the
      fixed disclaimer banner;
    - [Generate] and [GenerateMeta], which dispatch on the backend
      identifiers of a record package, render, normalise imports and
      assemble the generated files.

    Go values are modelled as follows.  A Go [string] is a [string] of
    bytes; Go's [int] is a [Z] in the range of a 64-bit platform; a
    slice is a [list] (the nil slice is the empty list); a [map] with
    string keys is a [gmap string _]; a run-time panic is an explicit
    outcome.  Operands are evaluated from left to right. *)

From Stdlib Require Import ZArith Ascii.
From Stdlib Require String.
From stdpp Require Import base option list strings pretty gmap.

Local Open Scope Z_scope.

(** ** Outcomes of evaluation: a value or a run-time panic *)

Inductive panic : Type :=
| IndexOutOfRange (index len : Z)   (* runtime error: index out of range [index] with length len *)
| NegativeRepeat (count : Z).       (* strings: negative Repeat count *)

Inductive outcome (A : Type) : Type :=
| Ret (a : A)
| Panic (p : panic).

Arguments Ret {A} a.
Arguments Panic {A} p.

#[global] Instance outcome_ret : MRet outcome := fun _ a => Ret a.
#[global] Instance outcome_bind : MBind outcome := fun _ _ f m =>
  match m with
  | Ret a => f a
  | Panic p => Panic p
  end.

Definition panics {A} (m : outcome A) : Prop := exists p, m = Panic p.

(** ** Go's [int], [len] and slice indexing *)

Definition MaxInt : Z := 2 ^ 63 - 1.
Definition MinInt : Z := - 2 ^ 63.

Definition len {A} (l : list A) : Z := Z.of_nat (length l).
Definition strlen (s : string) : Z := Z.of_nat (String.length s).

(** [l[i]]: bounds-checked, panics outside [0 <= i < len l]. *)
Definition index {A} (l : list A) (i : Z) : outcome A :=
  if decide (0 <= i) then
    match l !! Z.to_nat i with
    | Some x => Ret x
    | None => Panic (IndexOutOfRange i (len l))
    end
  else Panic (IndexOutOfRange i (len l)).

(** Every Go string and slice has a length that is an [int]. *)
Definition go_string (s : string) : Prop := strlen s <= MaxInt.
Definition go_slice {A} (l : list A) : Prop := len l <= MaxInt.

(** ** Package [strings] *)

Module strings.

(** [strings.Split(s, sep)] for a one-byte separator, the only way the
    generator calls it. *)
Fixpoint Split (s : string) (sep : ascii) : list string :=
  match s with
  | EmptyString => [EmptyString]
  | String c s' =>
      if decide (c = sep) then EmptyString :: Split s' sep
      else match Split s' sep with
           | l :: ls => String c l :: ls
           | [] => [String c EmptyString]
           end
  end.

(** [strings.SplitAfter(s, sep)]: as [Split], each piece keeps its
    separator. *)
Fixpoint SplitAfter (s : string) (sep : ascii) : list string :=
  match s with
  | EmptyString => [EmptyString]
  | String c s' =>
      if decide (c = sep) then String c EmptyString :: SplitAfter s' sep
      else match SplitAfter s' sep with
           | l :: ls => String c l :: ls
           | [] => [String c EmptyString]
           end
  end.

Fixpoint in_cutset (c : ascii) (cutset : string) : bool :=
  match cutset with
  | EmptyString => false
  | String d cutset' => if decide (c = d) then true else in_cutset c cutset'
  end.

Fixpoint TrimLeft (s cutset : string) : string :=
  match s with
  | EmptyString => EmptyString
  | String c s' => if in_cutset c cutset then TrimLeft s' cutset else s
  end.

Fixpoint TrimRight (s cutset : string) : string :=
  match s with
  | EmptyString => EmptyString
  | String c s' =>
      match TrimRight s' cutset with
      | EmptyString => if in_cutset c cutset then EmptyString else String c EmptyString
      | t => String c t
      end
  end.

(** [strings.Trim(s, cutset)] for a cutset of ASCII bytes. *)
Definition Trim (s cutset : string) : string :=
  TrimLeft (TrimRight s cutset) cutset.

Fixpoint repeat_nat (s : string) (n : nat) : string :=
  match n with
  | O => EmptyString
  | S n' => s +:+ repeat_nat s n'
  end.

(** [strings.Repeat(s, count)] panics on a negative count. *)
Definition Repeat (s : string) (count : Z) : outcome string :=
  if decide (count < 0) then Panic (NegativeRepeat count)
  else Ret (repeat_nat s (Z.to_nat count)).

End strings.

(** ** Package [strconv] *)

Module strconv.

Definition digit_val (c : ascii) : option Z :=
  let n := Z.of_nat (nat_of_ascii c) in
  if decide (48 <= n <= 57) then Some (n - 48) else None.

Definition is_digit (c : ascii) : bool := bool_decide (is_Some (digit_val c)).

(** Value of a run of decimal digits, most significant first. *)
Fixpoint digits_val (acc : Z) (s : string) : option Z :=
  match s with
  | EmptyString => Some acc
  | String c s' =>
      match digit_val c with
      | Some d => digits_val (10 * acc + d) s'
      | None => None
      end
  end.

Definition unsigned_val (s : string) : option Z :=
  match s with
  | EmptyString => None
  | _ => digits_val 0 s
  end.

(** [strconv.Atoi(s)]: an optional sign and at least one decimal digit;
    [None] stands for the syntax and range errors, which every caller
    here only tests against nil. *)
Definition Atoi (s : string) : option Z :=
  let signed :=
    match s with
    | String "-"%char s' => (-1, s')
    | String "+"%char s' => (1, s')
    | _ => (1, s)
    end in
  match unsigned_val signed.2 with
  | Some n =>
      let v := signed.1 * n in
      if decide (MinInt <= v <= MaxInt) then Some v else None
  | None => None
  end.

(** [%d] of [fmt.Sprintf] and [strconv.Itoa]. *)
Definition Itoa (n : Z) : string := pretty n.

End strconv.

(** ** Package [regexp], as far as [errImportsRx] needs it *)

Module regexp.

(** An anchored pattern is a sequence of items; [Digits] is the
    capturing group [(\d+)], [Byte c] the literal [c].  In every
    pattern used a digit run is followed by a literal that is not a
    digit, so the greedy run is the only way to match and no
    backtracking is involved. *)
Inductive item : Type :=
| Digits
| Byte (c : ascii).

Definition Regexp : Type := list item.

Fixpoint span_digits (s : string) : string * string :=
  match s with
  | EmptyString => (EmptyString, EmptyString)
  | String c s' =>
      if strconv.is_digit c
      then let r := span_digits s' in (String c r.1, r.2)
      else (EmptyString, s)
  end.

(** Match [re] at the start of [s]: the matched text and the groups. *)
Fixpoint match_prefix (re : Regexp) (s : string) : option (string * list string) :=
  match re with
  | [] => Some (EmptyString, [])
  | Digits :: re' =>
      let r := span_digits s in
      match r.1 with
      | EmptyString => None
      | ds =>
          match match_prefix re' r.2 with
          | Some (m, gs) => Some (ds +:+ m, ds :: gs)
          | None => None
          end
      end
  | Byte c :: re' =>
      match s with
      | String d s' =>
          if decide (d = c) then
            match match_prefix re' s' with
            | Some (m, gs) => Some (String d m, gs)
            | None => None
            end
          else None
      | EmptyString => None
      end
  end.

(** [re.FindStringSubmatch(s)]: nil without a match, else the match
    followed by its groups. *)
Definition FindStringSubmatch (re : Regexp) (s : string) : list string :=
  match match_prefix re s with
  | Some (m, gs) => m :: gs
  | None => []
  end.

End regexp.

(** ** Errors: the [error] values and github.com/pkg/errors *)

(** An error is a plain one, known by its message, or one of the two
    layers of github.com/pkg/errors: a message put in front of a cause,
    and a call stack put around an error.  The program counters of the
    stack are not kept. *)
Inductive error : Type :=
| errorString (msg : string)
| withMessage (cause : error) (msg : string)
| withStack (err : error).

(** The [Error()] method; a [withStack] has the one of the error it
    embeds. *)
Fixpoint Error (e : error) : string :=
  match e with
  | errorString msg => msg
  | withMessage cause msg => msg +:+ ": " +:+ Error cause
  | withStack err => Error err
  end.

Module errors.
Definition New (msg : string) : error := errorString msg.
(** [errors.Wrap(err, message)] for a non-nil [err]: the message layer
    inside the stack layer. *)
Definition Wrap (err : error) (message : string) : error :=
  withStack (withMessage err message).
(** [errors.Cause(err)]: below every layer that has a [Cause()]. *)
Fixpoint Cause (e : error) : error :=
  match e with
  | errorString _ => e
  | withMessage cause _ => Cause cause
  | withStack err => Cause err
  end.
(** [errors.Unwrap(err)]: one layer off. *)
Definition Unwrap (e : error) : option error :=
  match e with
  | errorString _ => None
  | withMessage cause _ => Some cause
  | withStack err => Some err
  end.
End errors.

(** ** The line mapper *)

Definition nl : ascii := "010".
Definition tab : string := String "009" "".

Definition errImportsRx : regexp.Regexp :=
  [regexp.Digits; regexp.Byte ":"; regexp.Digits; regexp.Byte ":"].

Definition ErrorLine (errIn : error) (genData : string) : outcome error :=
  let findErr := regexp.FindStringSubmatch errImportsRx (Error errIn) in
  if decide (len findErr = 3) then
    g1 ← index findErr 1;
    match strconv.Atoi g1 with
    | None => Ret (errors.Wrap errIn "can't unparse error line num")
    | Some lineNum =>
        let lines := strings.Split genData nl in
        if decide (len lines < lineNum) then
          Ret (errors.Wrap errIn
                 ("line num " +:+ strconv.Itoa lineNum +:+ " not found (total "
                  +:+ strconv.Itoa (len lines) +:+ ")"))
        else
          line ← index lines (lineNum - 1);
          g2 ← index findErr 2;
          match strconv.Atoi g2 with
          | None =>
              Ret (errors.Wrap errIn ("can't unparse error byte num in line: " +:+ line))
          | Some byteNum =>
              if decide (strlen line < byteNum) then
                Ret (errors.Wrap errIn ("byte num not found in line: " +:+ line))
              else
                before ← index lines (lineNum - 2);
                pad ← strings.Repeat " " (byteNum - 1);
                after ← index lines lineNum;
                Ret (errors.Wrap errIn
                       (String nl (strings.Trim before tab)
                        +:+ String nl (strings.Trim line tab)
                        +:+ String nl pad +:+ "^^^^^"
                        +:+ String nl (strings.Trim after tab)))
          end
    end
  else Ret (errors.Wrap errIn "cant parse error message").

(** ** Package [arerror]: the diagnostics of the generator *)

(** The two structs and the two sentinel errors are declared in package
    [arerror]; the fields are those the generator sets. *)
Module arerror.

(** [ErrGeneratorPhases]: a render failure with its phase and the
    template lines around it. *)
Module ErrGeneratorPhases.
Record t : Type := mk {
  Name : string;
  Backend : string;
  Phase : string;
  TmplLines : string;
  Err : error;
}.
Definition set_Name (name : string) (e : t) : t :=
  mk name (Backend e) (Phase e) (TmplLines e) (Err e).
End ErrGeneratorPhases.

(** What the [Err error] field of an [ErrGeneratorFile] holds in this
    package: one of the two sentinel errors, an error built by
    [ErrorLine], or a render diagnostic. *)
Inductive cause : Type :=
| ErrGeneratorBackendUnknown
| ErrGeneratorBackendNotImplemented
| Underlying (e : error)
| Phases (e : ErrGeneratorPhases.t).

Module ErrGeneratorFile.
Record t : Type := mk {
  Name : string;
  Backend : string;
  Filename : string;
  Err : cause;
}.
End ErrGeneratorFile.

End arerror.

(** The dynamic type behind the [error] that [Generate] returns. *)
Inductive generate_error : Type :=
| PhasesError (e : arerror.ErrGeneratorPhases.t)
| FileError (e : arerror.ErrGeneratorFile.t).

Definition diagnostic_name (e : generate_error) : string :=
  match e with
  | PhasesError e => arerror.ErrGeneratorPhases.Name e
  | FileError e => arerror.ErrGeneratorFile.Name e
  end.

(** ** Package [ds]: the record package, consumed opaquely *)

Module ds.

(** The declarations of package [ds] that the generator only passes
    on to the templates. *)
Class Types : Type := {
  FieldDeclaration : Type;
  FieldObject : Type;
  ProcFieldDeclaration : Type;
  ProcFieldDeclarations : Type;
  ProcFieldDeclarations_List : ProcFieldDeclarations -> list ProcFieldDeclaration;
  ServerDeclaration : Type;
  IndexDeclaration : Type;
  SerializerDeclaration : Type;
  MutatorDeclaration : Type;
  ImportDeclaration : Type;
  TriggerDeclaration : Type;
  FlagDeclaration : Type;
}.

Record NamespaceDeclaration : Type := {
  PublicName : string;
  PackageName : string;
}.

Record RecordPackage `{Types} : Type := {
  Server : ServerDeclaration;
  Namespace : NamespaceDeclaration;
  Fields : list FieldDeclaration;
  FieldsMap : gmap string Z;
  FieldsObjectMap : gmap string FieldObject;
  ProcInFields : list ProcFieldDeclaration;
  ProcOutFields : ProcFieldDeclarations;
  Indexes : list IndexDeclaration;
  Backends : list string;
  SerializerMap : gmap string SerializerDeclaration;
  MutatorMap : gmap string MutatorDeclaration;
  Imports : list ImportDeclaration;
  TriggerMap : gmap string TriggerDeclaration;
  FlagMap : gmap string FlagDeclaration;
}.

End ds.

(** ** Package [generator] *)

Definition disclaimer : string := "// Code generated by argen. DO NOT EDIT.
// This code was generated from a template.
//
// Manual changes to this file may cause unexpected behavior in your application.
// Manual changes to this file will be overwritten if the code is regenerated.
//
// Generate info: {{ .AppInfo }}
".

Definition TemplateName : string := "ARPkgTemplate".

Record PkgData `{ds.Types} : Type := {
  ARPkg : string;
  ARPkgTitle : string;
  FieldList : list ds.FieldDeclaration;
  FieldMap : gmap string Z;
  FieldObject : gmap string ds.FieldObject;
  LinkedObject : gmap string ds.RecordPackage;
  ProcInFieldList : list ds.ProcFieldDeclaration;
  ProcOutFieldList : list ds.ProcFieldDeclaration;
  Server : ds.ServerDeclaration;
  Container : ds.NamespaceDeclaration;
  Indexes : list ds.IndexDeclaration;
  Serializers : gmap string ds.SerializerDeclaration;
  Mutators : gmap string ds.MutatorDeclaration;
  Imports : list ds.ImportDeclaration;
  Triggers : gmap string ds.TriggerDeclaration;
  Flags : gmap string ds.FlagDeclaration;
  AppInfo : string;
}.

(** [NewPkgData] leaves [LinkedObject] at its zero value, the nil map. *)
Definition NewPkgData `{ds.Types} (appInfo : string) (cl : ds.RecordPackage) : PkgData := {|
  ARPkg := ds.PackageName (ds.Namespace cl);
  ARPkgTitle := ds.PublicName (ds.Namespace cl);
  Indexes := ds.Indexes cl;
  FieldList := ds.Fields cl;
  FieldMap := ds.FieldsMap cl;
  ProcInFieldList := ds.ProcInFields cl;
  ProcOutFieldList := ds.ProcFieldDeclarations_List (ds.ProcOutFields cl);
  FieldObject := ds.FieldsObjectMap cl;
  LinkedObject := ∅;
  Server := ds.Server cl;
  Container := ds.Namespace cl;
  Serializers := ds.SerializerMap cl;
  Mutators := ds.MutatorMap cl;
  Imports := ds.Imports cl;
  Triggers := ds.TriggerMap cl;
  Flags := ds.FlagMap cl;
  AppInfo := appInfo;
|}.

Definition set_LinkedObject `{ds.Types} (linkObject : gmap string ds.RecordPackage)
    (p : PkgData) : PkgData := {|
  ARPkg := ARPkg p;
  ARPkgTitle := ARPkgTitle p;
  FieldList := FieldList p;
  FieldMap := FieldMap p;
  FieldObject := FieldObject p;
  LinkedObject := linkObject;
  ProcInFieldList := ProcInFieldList p;
  ProcOutFieldList := ProcOutFieldList p;
  Server := Server p;
  Container := Container p;
  Indexes := Indexes p;
  Serializers := Serializers p;
  Mutators := Mutators p;
  Imports := Imports p;
  Triggers := Triggers p;
  Flags := Flags p;
  AppInfo := AppInfo p;
|}.

Record GenerateFile : Type := {
  Data : string;
  Name : string;
  Dir : string;
  Backend : string;
}.

Record MetaData `{ds.Types} : Type := {
  Namespaces : list ds.RecordPackage;
  MetaAppInfo : string;
}.

(** *** Writers: [io.Writer], [bytes.Buffer] and [bufio.Writer] *)

Module io.
(** [io.Writer]; the writers used here never fail. *)
Class Writer (W : Type) : Type := Write : W -> string -> W.
End io.

Module bytes.
(** A [bytes.Buffer] is the bytes written to it so far. *)
Definition Buffer : Type := string.
#[global] Instance Buffer_Writer : io.Writer Buffer := fun b p => b +:+ p.
Definition Bytes (b : Buffer) : string := b.
End bytes.

Module bufio.
(** A [bufio.Writer] over a [bytes.Buffer]: [wr] is what has reached
    the underlying buffer, [buf] what is still pending.  When the
    pending bytes move early makes no difference after [Flush]. *)
Record Writer : Type := { wr : bytes.Buffer; buf : string }.
Definition NewWriter (w : bytes.Buffer) : Writer := {| wr := w; buf := "" |}.
#[global] Instance Writer_Writer : io.Writer Writer :=
  fun w p => {| wr := wr w; buf := buf w +:+ p |}.
Definition Flush (w : Writer) : Writer :=
  {| wr := io.Write (wr w) (buf w); buf := "" |}.
End bufio.

(** *** What the generator calls and this file does not define *)

Module template.
(** Package [text/template]: parsing under a function registry and
    execution against a parameter object.  [Execute] yields the bytes
    it wrote before it finished or failed. *)
Class Engine : Type := {
  Template : Type;
  FuncMap : Type;
  Parse : string -> list FuncMap -> string -> Template + error;
  Execute : forall P : Type, Template -> P -> string * option error;
}.
End template.

(** One effect of [Generate] that the caller can observe or that costs
    a call into a collaborator. *)
Inductive event `{ds.Types} : Type :=
| LogPrintf (cl : ds.RecordPackage)
| CallGenerateOctopus (backend : string) (params : PkgData)
| CallImportsProcess (genData : string).

(** A computation of [Generate]: the events so far and the outcome. *)
Record run `{ds.Types} (A : Type) : Type := Run {
  events : list event;
  result : outcome A;
}.

Arguments Run {_ A} events result.
Arguments events {_ A} r.
Arguments result {_ A} r.

#[global] Instance run_ret `{ds.Types} : MRet run := fun _ a => Run [] (Ret a).
#[global] Instance run_bind `{ds.Types} : MBind run := fun _ _ f m =>
  match result m with
  | Ret a => Run (events m ++ events (f a)) (result (f a))
  | Panic p => Run (events m) (Panic p)
  end.
Definition emit `{ds.Types} (e : event) : run unit := Run [e] (Ret tt).
Definition lift `{ds.Types} {A} (m : outcome A) : run A := Run [] m.

Section generator.

Context `{ds.Types} `{template.Engine}.

(** The function registries [funcs] and [OctopusTemplateFuncs], the
    embedded [tmpl/meta.tmpl], [getTmplErrorLine] and
    [GenerateOctopus] live in other files of the package;
    [imports.Process] is golang.org/x/tools/imports. *)
Variable funcs : template.FuncMap.
Variable OctopusTemplateFuncs : template.FuncMap.
Variable MetaTmpl : string.
Variable getTmplErrorLine : list string -> string -> string * option error.
Variable GenerateOctopus :
  PkgData -> gmap string bytes.Buffer * option arerror.ErrGeneratorPhases.t.
Variable imports_Process : string -> string * option error.

(** The order in which the [range] over the map of the [i]-th backend
    visits it; Go leaves it unspecified, any enumeration of the map may
    come. *)
Variable range_order : nat -> gmap string bytes.Buffer -> list (string * bytes.Buffer).

(** The template lines shown in a render diagnostic. *)
Definition tmplErrorLines (tmpl : string) (err : error) : string :=
  let '(tmplLines, errgetline) :=
    getTmplErrorLine (strings.SplitAfter (disclaimer +:+ tmpl) nl) (Error err) in
  match errgetline with
  | Some errgetline => Error errgetline
  | None => tmplLines
  end.

Definition GenerateByTmpl {W} `{io.Writer W} {P : Type}
    (dstFile : W) (params : P) (name tmpl : string)
  : W * option arerror.ErrGeneratorPhases.t :=
  match template.Parse TemplateName [funcs; OctopusTemplateFuncs] (disclaimer +:+ tmpl) with
  | inr err =>
      (dstFile,
       Some (arerror.ErrGeneratorPhases.mk "" name "parse" (tmplErrorLines tmpl err) err))
  | inl templatePackage =>
      let '(written, err) := template.Execute P templatePackage params in
      let dstFile := io.Write dstFile written in
      match err with
      | Some err =>
          (dstFile,
           Some (arerror.ErrGeneratorPhases.mk "" name "execute" (tmplErrorLines tmpl err) err))
      | None => (dstFile, None)
      end
  end.

Definition GenerateMeta (params : MetaData)
  : outcome (list GenerateFile * option arerror.ErrGeneratorFile.t) :=
  let metaWriter : bytes.Buffer := "" in
  let metaFile := bufio.NewWriter metaWriter in
  let '(metaFile, err) := GenerateByTmpl metaFile params "meta" MetaTmpl in
  match err with
  | Some err =>
      Ret ([], Some (arerror.ErrGeneratorFile.mk "repository.go" "meta" "repository.go"
                       (arerror.Phases err)))
  | None =>
      let metaWriter := bufio.wr (bufio.Flush metaFile) in
      let genData := bytes.Bytes metaWriter in
      let '(data, err) := imports_Process genData in
      match err with
      | Some err =>
          e ← ErrorLine err genData;
          Ret ([], Some (arerror.ErrGeneratorFile.mk "repository.go" "meta" "repository.go"
                           (arerror.Underlying e)))
      | None =>
          Ret ([ {| Dir := ""; Name := "repository.go"; Backend := "meta"; Data := data |} ],
               None)
      end
  end.

(** The [switch] of [Generate]: the rendered outputs of an implemented
    backend, or the error to return. *)
Definition switch_backend (appInfo : string) (cl : ds.RecordPackage)
    (linkObject : gmap string ds.RecordPackage) (backend : string)
  : run (gmap string bytes.Buffer + generate_error) :=
  let PublicName := ds.PublicName (ds.Namespace cl) in
  let octopus :=
    let params := set_LinkedObject linkObject (NewPkgData appInfo cl) in
    _ ← emit (LogPrintf cl);
    _ ← emit (CallGenerateOctopus backend params);
    let '(generated, err) := GenerateOctopus params in
    match err with
    | Some err => mret (inr (PhasesError (arerror.ErrGeneratorPhases.set_Name PublicName err)))
    | None => mret (inl generated)
    end in
  let notImplemented :=
    mret (inr (FileError (arerror.ErrGeneratorFile.mk PublicName backend ""
                            arerror.ErrGeneratorBackendNotImplemented))) in
  if decide (backend = "tarantool15") then octopus
  else if decide (backend = "octopus") then octopus
  else if decide (backend = "tarantool16") then notImplemented
  else if decide (backend = "tarantool2") then notImplemented
  else if decide (backend = "postgres") then notImplemented
  else
    mret (inr (FileError (arerror.ErrGeneratorFile.mk PublicName backend ""
                            arerror.ErrGeneratorBackendUnknown))).

(** The inner loop, over the outputs of one backend in the order the
    [range] visits them: the grown [ret], or the error to return. *)
Fixpoint range_generated (cl : ds.RecordPackage) (backend : string)
    (generated : list (string * bytes.Buffer)) (ret : list GenerateFile)
  : run (list GenerateFile + generate_error) :=
  match generated with
  | [] => mret (inl ret)
  | (name, data) :: generated' =>
      let genData := bytes.Bytes data in
      _ ← emit (CallImportsProcess genData);
      let '(formatted, err) := imports_Process genData in
      match err with
      | Some err =>
          e ← lift (ErrorLine err genData);
          mret (inr (FileError (arerror.ErrGeneratorFile.mk
                                  (ds.PublicName (ds.Namespace cl)) backend (name +:+ ".go")
                                  (arerror.Underlying e))))
      | None =>
          let genRes := {| Dir := ds.PackageName (ds.Namespace cl);
                           Name := name +:+ ".go";
                           Backend := backend;
                           Data := formatted |} in
          range_generated cl backend generated' (ret ++ [genRes])
      end
  end.

(** The outer loop, from the [i]-th backend on. *)
Fixpoint range_backends (appInfo : string) (cl : ds.RecordPackage)
    (linkObject : gmap string ds.RecordPackage)
    (i : nat) (backends : list string) (ret : list GenerateFile)
  : run (list GenerateFile + generate_error) :=
  match backends with
  | [] => mret (inl ret)
  | backend :: backends' =>
      sw ← switch_backend appInfo cl linkObject backend;
      match sw with
      | inr err => mret (inr err)
      | inl generated =>
          r ← range_generated cl backend (range_order i generated) ret;
          match r with
          | inr err => mret (inr err)
          | inl ret => range_backends appInfo cl linkObject (S i) backends' ret
          end
      end
  end.

Definition Generate (appInfo : string) (cl : ds.RecordPackage)
    (linkObject : gmap string ds.RecordPackage)
  : run (list GenerateFile * option generate_error) :=
  r ← range_backends appInfo cl linkObject 0 (ds.Backends cl) [];
  match r with
  | inl ret => mret (ret, None)
  | inr err => mret ([], Some err)
  end.

End generator.

(** The generated file that [Generate] assembles from the output
    [(name, data)] of a backend once [imports.Process] accepted it. *)
Definition artifact `{ds.Types} (imports_Process : string -> string * option error)
    (cl : ds.RecordPackage) (backend : string) (output : string * bytes.Buffer)
  : GenerateFile :=
  {| Dir := ds.PackageName (ds.Namespace cl);
     Name := output.1 +:+ ".go";
     Backend := backend;
     Data := (imports_Process (bytes.Bytes output.2)).1 |}.

(** ** Locators and lines, for stating the line mapper's properties *)

(** [numeral ds n]: [ds] is a non-empty run of decimal digits that
    denotes [n]. *)
Definition numeral (ds : string) (n : Z) : Prop :=
  ds <> "" /\ strconv.digits_val 0 ds = Some n.

(** [locator msg k c]: [msg] begins with [k:c:]. *)
Definition locator (msg : string) (k c : Z) : Prop :=
  exists ds1 ds2 rest,
    msg = ds1 +:+ ":" +:+ ds2 +:+ ":" +:+ rest /\ numeral ds1 k /\ numeral ds2 c.

(** The element at 0-based index [i] of the split text. *)
Definition line_at (lines : list string) (i : Z) : string :=
  default "" (lines !! Z.to_nat i).

(** [s] does not go on with a digit. *)
Definition no_digit_ahead (s : string) : Prop :=
  match s with
  | EmptyString => True
  | String c _ => strconv.is_digit c = false
  end.

(** ** A small instantiation, for the examples *)

Module example.

Definition types : ds.Types := {|
  ds.FieldDeclaration := unit;
  ds.FieldObject := unit;
  ds.ProcFieldDeclaration := unit;
  ds.ProcFieldDeclarations := unit;
  ds.ProcFieldDeclarations_List := fun _ => [];
  ds.ServerDeclaration := unit;
  ds.IndexDeclaration := unit;
  ds.SerializerDeclaration := unit;
  ds.MutatorDeclaration := unit;
  ds.ImportDeclaration := unit;
  ds.TriggerDeclaration := unit;
  ds.FlagDeclaration := unit;
|}.

(** An engine whose templates are plain text: parsing rejects the
    body [bad], execution writes the text and fails on the parameter
    [false]. *)
Definition engine : template.Engine := {|
  template.Template := string;
  template.FuncMap := unit;
  template.Parse := fun _ _ text =>
    if decide (text = disclaimer +:+ "bad")
    then inr (errors.New "template: ARPkgTemplate:8: function not defined")
    else inl text;
  template.Execute := fun P t _ => (t, None);
|}.

Definition package (backends : list string) : @ds.RecordPackage types :=
  @ds.Build_RecordPackage types
    tt {| ds.PublicName := "Gift"; ds.PackageName := "gift" |}
    [] ∅ ∅ [] tt [] backends ∅ ∅ [] ∅ ∅.

Definition raw : string := String "a" (String nl (String "b" (String nl "c"))).

(** A backend generator with the single output [octopus]. *)
Definition octopus (_ : @PkgData types)
  : gmap string bytes.Buffer * option arerror.ErrGeneratorPhases.t :=
  ({[ "octopus" := raw ]}, None).

Definition format_ok (genData : string) : string * option error := (genData, None).

Definition format_fails (genData : string) : string * option error :=
  ("", Some (errors.New "2:1: expected declaration")).

Definition order (i : nat) (m : gmap string bytes.Buffer) : list (string * bytes.Buffer) :=
  map_to_list m.

Definition no_lines (lines : list string) (msg : string) : string * option error :=
  ("", None).

End example.

(** ** The fixture generator *)

(** [FixturePkgData] is declared beside [generateFixture], in another
    file of the package; these are the fields [GenerateFixture] sets. *)
Module FixturePkgData.
Record t `{ds.Types} : Type := mk {
  FixturePkg : string;
  ARPkg : string;
  ARPkgTitle : string;
  FieldList : list ds.FieldDeclaration;
  FieldMap : gmap string Z;
  FieldObject : gmap string ds.FieldObject;
  ProcInFieldList : list ds.ProcFieldDeclaration;
  ProcOutFieldList : list ds.ProcFieldDeclaration;
  Container : ds.NamespaceDeclaration;
  Indexes : list ds.IndexDeclaration;
  Serializers : gmap string ds.SerializerDeclaration;
  Imports : list ds.ImportDeclaration;
  AppInfo : string;
}.
End FixturePkgData.

Section fixture.

Context `{ds.Types}.

(** [generateFixture] lives in another file of the package;
    [range_order] is the order in which the [range] visits the map. *)
Variable generateFixture :
  FixturePkgData.t -> gmap string bytes.Buffer * option arerror.ErrGeneratorPhases.t.
Variable imports_Process : string -> string * option error.
Variable range_order : gmap string bytes.Buffer -> list (string * bytes.Buffer).

(** The loop of [GenerateFixture] over the rendered outputs: the grown
    [ret], or the error to return.  The key of an output is not used,
    and [genRes.Backend] stays at its zero value. *)
Fixpoint range_fixture (cl : ds.RecordPackage) (pkgFixture : string)
    (generated : list (string * bytes.Buffer)) (ret : list GenerateFile)
  : outcome (list GenerateFile + generate_error) :=
  match generated with
  | [] => Ret (inl ret)
  | (_, data) :: generated' =>
      let Name := ds.PackageName (ds.Namespace cl) +:+ "_gen.go" in
      let genData := bytes.Bytes data in
      let '(dataImp, err) := imports_Process genData in
      match err with
      | Some err =>
          e ← ErrorLine err genData;
          Ret (inr (FileError (arerror.ErrGeneratorFile.mk
                                 (ds.PublicName (ds.Namespace cl)) "fixture" Name
                                 (arerror.Underlying e))))
      | None =>
          let genRes := {| Dir := pkgFixture; Name := Name; Backend := "";
                           Data := dataImp |} in
          range_fixture cl pkgFixture generated' (ret ++ [genRes])
      end
  end.

(** [GenerateFixture]; its log line leaves no trace in the result. *)
Definition GenerateFixture (appInfo : string) (cl : ds.RecordPackage)
    (pkg pkgFixture : string)
  : outcome (list GenerateFile * option generate_error) :=
  let params := {|
    FixturePkgData.FixturePkg := pkgFixture;
    FixturePkgData.ARPkg := pkg;
    FixturePkgData.ARPkgTitle := ds.PublicName (ds.Namespace cl);
    FixturePkgData.FieldList := ds.Fields cl;
    FixturePkgData.FieldMap := ds.FieldsMap cl;
    FixturePkgData.FieldObject := ds.FieldsObjectMap cl;
    FixturePkgData.ProcInFieldList := ds.ProcInFields cl;
    FixturePkgData.ProcOutFieldList := ds.ProcFieldDeclarations_List (ds.ProcOutFields cl);
    FixturePkgData.Container := ds.Namespace cl;
    FixturePkgData.Indexes := ds.Indexes cl;
    FixturePkgData.Serializers := ds.SerializerMap cl;
    FixturePkgData.Imports := ds.Imports cl;
    FixturePkgData.AppInfo := appInfo;
  |} in
  let '(generated, err) := generateFixture params in
  match err with
  | Some err =>
      Ret ([], Some (PhasesError (arerror.ErrGeneratorPhases.set_Name
                                    (ds.PublicName (ds.Namespace cl)) err)))
  | None =>
      r ← range_fixture cl pkgFixture (range_order generated) [];
      match r with
      | inl ret => Ret (ret, None)
      | inr err => Ret ([], Some err)
      end
  end.

End fixture.

(** The file that [GenerateFixture] assembles from a rendered output. *)
Definition fixture_file `{ds.Types} (imports_Process : string -> string * option error)
    (cl : ds.RecordPackage) (pkgFixture : string) (output : string * bytes.Buffer)
  : GenerateFile :=
  {| Dir := pkgFixture;
     Name := ds.PackageName (ds.Namespace cl) +:+ "_gen.go";
     Backend := "";
     Data := (imports_Process (bytes.Bytes output.2)).1 |}.

(** ** Vocabulary for the further properties *)

(** The lines of a text put together again, [sep] between them. *)
Fixpoint join_lines (sep : ascii) (lines : list string) : string :=
  match lines with
  | [] => ""
  | [l] => l
  | l :: lines' => l +:+ String sep (join_lines sep lines')
  end.

(** The pieces of a text one after the other. *)
Definition concat_pieces (pieces : list string) : string :=
  foldr String.append "" pieces.

(** The files [Generate] returns for the backends [backends], the first
    of which is at position [i] of the list, when every one of them is
    rendered to [generated] and formatted. *)
Definition files_of `{ds.Types} (imports_Process : string -> string * option error)
    (range_order : nat -> gmap string bytes.Buffer -> list (string * bytes.Buffer))
    (cl : ds.RecordPackage) (generated : gmap string bytes.Buffer)
    (i : nat) (backends : list string) : list GenerateFile :=
  mjoin (imap (fun j backend =>
                 artifact imports_Process cl backend <$> range_order (i + j)%nat generated)
              backends).

(** A second backend generator for the examples, with two outputs. *)
Definition example_two_outputs (_ : @PkgData example.types)
  : gmap string bytes.Buffer * option arerror.ErrGeneratorPhases.t :=
  ({[ "octopus" := example.raw; "mock" := "package mock" ]}, None).

Definition example_fixture (_ : @FixturePkgData.t example.types)
  : gmap string bytes.Buffer * option arerror.ErrGeneratorPhases.t :=
  ({[ "fixture" := example.raw; "store" := "package store" ]}, None).

(** A formatter for the examples that rejects its input at line 1. *)
Definition example_format_line1 (genData : string) : string * option error :=
  ("", Some (errors.New "1:1: expected 'package'")).

(** * Properties *)

(** ** The library functions on small inputs *)

Example Split_lines :
  strings.Split (String "a" (String nl (String nl "b"))) nl = ["a"; ""; "b"]
  /\ strings.Split "" nl = [""]
  /\ strings.SplitAfter (String "a" (String nl "b")) nl = [String "a" (String nl ""); "b"].
Proof. by vm_compute. Qed.

Example Trim_tabs :
  strings.Trim (tab +:+ tab +:+ "a" +:+ tab +:+ "b" +:+ tab) tab = "a" +:+ tab +:+ "b"
  /\ strings.Trim tab tab = "".
Proof. by vm_compute. Qed.

Example Atoi_values :
  strconv.Atoi "007" = Some 7
  /\ strconv.Atoi "-12" = Some (-12)
  /\ strconv.Atoi "" = None
  /\ strconv.Atoi "1x" = None
  /\ strconv.Atoi "9223372036854775807" = Some MaxInt
  /\ strconv.Atoi "9223372036854775808" = None
  /\ strconv.Itoa 42 = "42".
Proof. by vm_compute. Qed.

Example FindStringSubmatch_values :
  regexp.FindStringSubmatch errImportsRx "12:7: expected" = ["12:7:"; "12"; "7"]
  /\ regexp.FindStringSubmatch errImportsRx "12:x: expected" = []
  /\ regexp.FindStringSubmatch errImportsRx " 12:7:" = [].
Proof. by vm_compute. Qed.

(** ** Strings *)

Lemma app_cons c s t : String c s +:+ t = String c (s +:+ t).
Proof. reflexivity. Qed.

Lemma app_nil_l s : "" +:+ s = s.
Proof. reflexivity. Qed.

Lemma app_assoc' s t u : (s +:+ t) +:+ u = s +:+ t +:+ u.
Proof. induction s as [|c s IH]; [done|]. by rewrite !app_cons, IH. Qed.

Lemma strlen_cons c s : strlen (String c s) = 1 + strlen s.
Proof. unfold strlen. cbn [String.length]. lia. Qed.

Lemma strlen_nonneg s : 0 <= strlen s.
Proof. unfold strlen. lia. Qed.

Lemma Split_cons_inv s sep : exists l ls, strings.Split s sep = l :: ls.
Proof.
  destruct s as [|c s]; cbn [strings.Split]; [by eauto|].
  case_decide; [by eauto|]. destruct (strings.Split s sep); eauto.
Qed.

(** The split text has at most one line more than the text has bytes,
    and no line is longer than the text. *)
Lemma Split_bounds s sep :
  1 <= len (strings.Split s sep) <= 1 + strlen s /\
  Forall (fun l => strlen l <= strlen s) (strings.Split s sep).
Proof.
  induction s as [|c s [IHn IHl]]; cbn [strings.Split].
  - split; [by compute|]. by repeat constructor.
  - rewrite strlen_cons. case_decide.
    + unfold len in *. cbn [length]. split; [lia|].
      constructor; [unfold strlen; cbn [String.length]; lia|].
      eapply Forall_impl; [done|]. intros; cbn beta in *; lia.
    + destruct (Split_cons_inv s sep) as (l & ls & Hs). rewrite Hs in *.
      unfold len in *. cbn [length] in *. split; [lia|].
      inversion_clear IHl as [|? ? Hl Hls]. constructor.
      * rewrite strlen_cons. lia.
      * eapply Forall_impl; [done|]. intros; cbn beta in *; lia.
Qed.

Lemma index_Ret {A} (l : list A) i x :
  0 <= i -> l !! Z.to_nat i = Some x -> index l i = Ret x.
Proof. intros Hi Hx. unfold index. rewrite decide_True by done. by rewrite Hx. Qed.

Lemma index_line_at lines i :
  0 <= i < len lines -> index lines i = Ret (line_at lines i).
Proof.
  intros [Hi Hlt]. unfold line_at.
  destruct (lookup_lt_is_Some_2 lines (Z.to_nat i)) as [x Hx]; [unfold len in Hlt; lia|].
  rewrite Hx. by apply index_Ret.
Qed.

Lemma index_Panic {A} (l : list A) i :
  i < 0 \/ len l <= i -> index l i = Panic (IndexOutOfRange i (len l)).
Proof.
  intros Hi. unfold index. case_decide; [|done].
  rewrite lookup_ge_None_2; [done|]. unfold len in Hi. lia.
Qed.

Lemma line_at_strlen s i :
  strlen (line_at (strings.Split s nl) i) <= strlen s.
Proof.
  unfold line_at. destruct (_ !! _) as [l|] eqn:Hl; cbn [default].
  - destruct (Split_bounds s nl) as [_ Hall].
    rewrite Forall_lookup in Hall. by apply (Hall _ _ Hl).
  - apply strlen_nonneg.
Qed.

(** ** Decimal numerals, [strconv.Atoi] and the locator pattern *)

Lemma digit_val_range c d : strconv.digit_val c = Some d -> 0 <= d <= 9.
Proof. unfold strconv.digit_val. case_decide; intros; simplify_eq; lia. Qed.

Lemma is_digit_Some c : strconv.is_digit c = true <-> is_Some (strconv.digit_val c).
Proof. unfold strconv.is_digit. apply bool_decide_eq_true. Qed.

Lemma is_digit_None c : strconv.is_digit c = false <-> strconv.digit_val c = None.
Proof.
  unfold strconv.is_digit. rewrite bool_decide_eq_false, <-eq_None_not_Some. done.
Qed.

Lemma digits_val_acc a b s :
  is_Some (strconv.digits_val a s) -> is_Some (strconv.digits_val b s).
Proof.
  revert a b. induction s as [|c s IH]; intros a b; cbn [strconv.digits_val]; [by eauto|].
  destruct (strconv.digit_val c); [apply IH|done].
Qed.

Lemma digits_val_lower a s n : strconv.digits_val a s = Some n -> 0 <= a -> a <= n.
Proof.
  revert a. induction s as [|c s IH]; intros a; cbn [strconv.digits_val].
  - intros; simplify_eq; lia.
  - destruct (strconv.digit_val c) as [d|] eqn:Hd; [|done].
    intros Hn Ha. apply digit_val_range in Hd. apply IH in Hn; lia.
Qed.

Lemma numeral_nonneg ds n : numeral ds n -> 0 <= n.
Proof. intros [_ Hn]. by apply digits_val_lower in Hn. Qed.

(** A numeral does not start with a sign, so [Atoi] reads it as it
    stands and fails exactly when the value does not fit an [int]. *)
Lemma Atoi_numeral ds n :
  numeral ds n -> strconv.Atoi ds = if decide (n <= MaxInt) then Some n else None.
Proof.
  intros [Hne Hn]. pose proof (numeral_nonneg ds n (conj Hne Hn)) as Hpos.
  destruct ds as [|c ds]; [done|].
  assert (c <> "-"%char /\ c <> "+"%char) as [Hm Hp].
  { cbn [strconv.digits_val] in Hn. split; intros ->; by vm_compute in Hn. }
  assert (strconv.Atoi (String c ds)
          = match strconv.unsigned_val (String c ds) with
            | Some n => if decide (MinInt <= 1 * n <= MaxInt) then Some (1 * n) else None
            | None => None
            end) as ->.
  { unfold strconv.Atoi.
    destruct c as [[] [] [] [] [] [] [] []]; try reflexivity; by (exfalso; auto). }
  unfold strconv.unsigned_val. rewrite Hn.
  replace (1 * n) with n by lia.
  unfold MinInt, MaxInt in *. repeat case_decide; (done || lia).
Qed.

Lemma Atoi_numeral_int ds n :
  numeral ds n -> n <= MaxInt -> strconv.Atoi ds = Some n.
Proof. intros Hn Hle. rewrite (Atoi_numeral ds n Hn). by rewrite decide_True. Qed.

Lemma Atoi_numeral_overflow ds n :
  numeral ds n -> MaxInt < n -> strconv.Atoi ds = None.
Proof. intros Hn Hlt. rewrite (Atoi_numeral ds n Hn). rewrite decide_False; [done|lia]. Qed.

Lemma span_digits_app ds rest a :
  is_Some (strconv.digits_val a ds) -> no_digit_ahead rest ->
  regexp.span_digits (ds +:+ rest) = (ds, rest).
Proof.
  revert a. induction ds as [|c ds IH]; intros a Hds Hrest.
  - rewrite app_nil_l. destruct rest as [|c rest]; [done|].
    cbn [regexp.span_digits no_digit_ahead] in *. by rewrite Hrest.
  - rewrite app_cons. cbn [regexp.span_digits strconv.digits_val] in *.
    destruct (strconv.digit_val c) as [d|] eqn:Hd; [|by destruct Hds].
    assert (strconv.is_digit c = true) as -> by (apply is_digit_Some; eauto).
    by rewrite (IH _ Hds Hrest).
Qed.

Lemma span_digits_spec s :
  s = (regexp.span_digits s).1 +:+ (regexp.span_digits s).2 /\
  is_Some (strconv.digits_val 0 (regexp.span_digits s).1) /\
  no_digit_ahead (regexp.span_digits s).2.
Proof.
  induction s as [|c s (IH1 & IH2 & IH3)]; cbn [regexp.span_digits].
  - by repeat split; eauto.
  - destruct (strconv.is_digit c) eqn:Hc; cbn [fst snd].
    + rewrite app_cons, <-IH1. split; [done|]. split; [|done].
      cbn [strconv.digits_val]. apply is_digit_Some in Hc as [d ->].
      by eapply digits_val_acc.
    + rewrite app_nil_l. by repeat split; cbn; eauto.
Qed.

Lemma FindStringSubmatch_locator ds1 ds2 rest k c :
  numeral ds1 k -> numeral ds2 c ->
  regexp.FindStringSubmatch errImportsRx (ds1 +:+ ":" +:+ ds2 +:+ ":" +:+ rest)
  = [ds1 +:+ ":" +:+ ds2 +:+ ":"; ds1; ds2].
Proof.
  intros [Hne1 Hk] [Hne2 Hc].
  unfold regexp.FindStringSubmatch, errImportsRx. cbn [regexp.match_prefix].
  rewrite (span_digits_app ds1 _ 0) by (by eauto). cbn [fst snd].
  destruct ds1 as [|c1 ds1]; [done|].
  change (":" +:+ ds2 +:+ ":" +:+ rest) with (String ":" (ds2 +:+ String ":" rest)).
  cbv beta iota. rewrite decide_True by done.
  rewrite (span_digits_app ds2 _ 0) by (by eauto). cbn [fst snd].
  destruct ds2 as [|c2 ds2]; [done|].
  cbv beta iota. rewrite decide_True by done.
  reflexivity.
Qed.

(** The pattern matches exactly the messages that begin with a locator. *)
Lemma FindStringSubmatch_cases msg :
  (exists k c, locator msg k c) \/ regexp.FindStringSubmatch errImportsRx msg = [].
Proof.
  unfold regexp.FindStringSubmatch, errImportsRx. cbn [regexp.match_prefix].
  destruct (span_digits_spec msg) as (Hmsg & [k Hk] & _).
  destruct (regexp.span_digits msg) as [ds1 r1]; cbn [fst snd] in *.
  destruct ds1 as [|c1 ds1]; [by right|].
  destruct r1 as [|d1 r1]; [by right|].
  case_decide as Hd1; [subst d1|by right].
  destruct (span_digits_spec r1) as (Hr1 & [c Hc] & _).
  destruct (regexp.span_digits r1) as [ds2 r2]; cbn [fst snd] in *.
  destruct ds2 as [|c2 ds2]; [by right|].
  destruct r2 as [|d2 r2]; [by right|].
  case_decide as Hd2; [subst d2|by right].
  left. exists k, c, (String c1 ds1), (String c2 ds2), r2.
  split; [by rewrite Hmsg, Hr1|]. by repeat split.
Qed.

Lemma FindStringSubmatch_no_locator msg :
  (forall k c, ~ locator msg k c) -> regexp.FindStringSubmatch errImportsRx msg = [].
Proof. intros Hno. destruct (FindStringSubmatch_cases msg) as [(k & c & Hl)|]; [|done]. by destruct (Hno k c). Qed.

(** ** The line mapper on a message that begins with a locator *)

Lemma ErrorLine_located errIn genData k c :
  locator (Error errIn) k c ->
  ErrorLine errIn genData =
    if decide (k <= MaxInt) then
      let lines := strings.Split genData nl in
      if decide (len lines < k) then
        Ret (errors.Wrap errIn
               ("line num " +:+ strconv.Itoa k +:+ " not found (total "
                +:+ strconv.Itoa (len lines) +:+ ")"))
      else
        line ← index lines (k - 1);
        if decide (c <= MaxInt) then
          if decide (strlen line < c) then
            Ret (errors.Wrap errIn ("byte num not found in line: " +:+ line))
          else
            before ← index lines (k - 2);
            pad ← strings.Repeat " " (c - 1);
            after ← index lines k;
            Ret (errors.Wrap errIn
                   (String nl (strings.Trim before tab)
                    +:+ String nl (strings.Trim line tab)
                    +:+ String nl pad +:+ "^^^^^"
                    +:+ String nl (strings.Trim after tab)))
        else Ret (errors.Wrap errIn ("can't unparse error byte num in line: " +:+ line))
    else Ret (errors.Wrap errIn "can't unparse error line num").
Proof.
  intros (ds1 & ds2 & rest & Hmsg & Hk & Hc).
  unfold ErrorLine. rewrite Hmsg, (FindStringSubmatch_locator ds1 ds2 rest k c Hk Hc).
  rewrite decide_True by done.
  change (index [_; ds1; ds2] 1) with (Ret ds1).
  change (index [_; ds1; ds2] 2) with (Ret ds2).
  cbn [mbind outcome_bind].
  rewrite (Atoi_numeral ds1 k Hk), (Atoi_numeral ds2 c Hc).
  case_decide; [|done]. cbv zeta. case_decide; [done|].
  destruct (index _ (k - 1)); cbn [mbind outcome_bind]; [|done].
  by case_decide.
Qed.

(** The two layers of [errors.Wrap]: the first [Unwrap] takes the stack
    off, the second gives the wrapped error; the message and the root
    cause go through both. *)
Lemma Wrap_layers err message :
  errors.Unwrap (errors.Wrap err message) = Some (withMessage err message) /\
  errors.Unwrap (withMessage err message) = Some err /\
  errors.Cause (errors.Wrap err message) = errors.Cause err /\
  Error (errors.Wrap err message) = message +:+ ": " +:+ Error err.
Proof. done. Qed.

Lemma ErrorLine_no_locator errIn genData :
  (forall k c, ~ locator (Error errIn) k c) ->
  ErrorLine errIn genData = Ret (errors.Wrap errIn "cant parse error message").
Proof.
  intros Hno. unfold ErrorLine. by rewrite (FindStringSubmatch_no_locator _ Hno).
Qed.

(** Every error that [ErrorLine] returns wraps the error it was given. *)
Lemma ErrorLine_Ret_wraps errIn genData e :
  ErrorLine errIn genData = Ret e -> exists msg, e = errors.Wrap errIn msg.
Proof.
  destruct (FindStringSubmatch_cases (Error errIn)) as [(k & c & Hloc)|Hno].
  - rewrite (ErrorLine_located errIn genData k c Hloc). cbv zeta.
    repeat (case_decide || (destruct (index _ _); cbn [mbind outcome_bind])
            || (destruct (strings.Repeat _ _); cbn [mbind outcome_bind]));
      intros; simplify_eq; eauto.
  - unfold ErrorLine. rewrite Hno. rewrite decide_False by done.
    intros; simplify_eq; eauto.
Qed.

Lemma strlen_repeat_spaces n : String.length (strings.repeat_nat " " n) = n.
Proof.
  induction n as [|n IH]; [done|].
  change (S (String.length (strings.repeat_nat " " n)) = S n). by rewrite IH.
Qed.

(** C2.  For an error whose message begins with the locator [k:c:] and a
    source text of [N] lines, when [2 <= k <= N - 1] and
    [1 <= c <= len(line k)], [ErrorLine] returns an error that wraps the
    original (it is [errors.Wrap] of it, with the same root cause) and
    whose message is, in this order: a newline and line
    [k - 1] tab-trimmed, a newline and line [k] tab-trimmed, a newline
    and a caret line of exactly [c - 1] spaces followed by the five
    carets, a newline and the tab-trimmed element at 0-based index [k]
    of the line array, then the original message.  (With the array
    0-based, lines [k - 1] and [k] are its elements [k - 2] and
    [k - 1].) *)
Theorem ErrorLine_snippet errIn genData k c :
  go_string genData ->
  locator (Error errIn) k c ->
  let lines := strings.Split genData nl in
  2 <= k <= len lines - 1 ->
  1 <= c <= strlen (line_at lines (k - 1)) ->
  exists e,
    ErrorLine errIn genData = Ret e /\
    (exists message, e = errors.Wrap errIn message) /\
    errors.Cause e = errors.Cause errIn /\
    Error e =
      (String nl (strings.Trim (line_at lines (k - 2)) tab)
       +:+ String nl (strings.Trim (line_at lines (k - 1)) tab)
       +:+ String nl (strings.repeat_nat " " (Z.to_nat (c - 1))) +:+ "^^^^^"
       +:+ String nl (strings.Trim (line_at lines k) tab))
      +:+ ": " +:+ Error errIn /\
    strlen (strings.repeat_nat " " (Z.to_nat (c - 1))) = c - 1.
Proof.
  intros Hgo Hloc lines Hk Hc.
  destruct (Split_bounds genData nl) as [Hn _]. fold lines in Hn.
  pose proof (line_at_strlen genData (k - 1)) as Hline. fold lines in Hline.
  unfold go_string in Hgo.
  eexists. split; [|split; [|split; [|split]]].
  - rewrite (ErrorLine_located errIn genData k c Hloc). fold lines. cbv zeta.
    rewrite decide_True by lia. rewrite decide_False by lia.
    rewrite (index_line_at lines (k - 1)) by lia. cbn [mbind outcome_bind].
    rewrite decide_True by lia. rewrite decide_False by lia.
    rewrite (index_line_at lines (k - 2)) by lia. cbn [mbind outcome_bind].
    unfold strings.Repeat. rewrite decide_False by lia. cbn [mbind outcome_bind].
    rewrite (index_line_at lines k) by lia. cbn [mbind outcome_bind].
    reflexivity.
  - by eexists.
  - reflexivity.
  - reflexivity.
  - unfold strlen. rewrite strlen_repeat_spaces. lia.
Qed.

Lemma ErrorLine_snippet_witness :
  let genData :=
    tab +:+ "a" +:+ String nl (tab +:+ "bcd" +:+ tab +:+ String nl ("e" +:+ tab)) in
  exists e,
    ErrorLine (errors.New "2:3: boom") genData = Ret e /\
    Error e = String nl "a" +:+ String nl "bcd" +:+ String nl "  ^^^^^" +:+ String nl "e"
              +:+ ": 2:3: boom".
Proof.
  cbv zeta.
  destruct (ErrorLine_snippet (errors.New "2:3: boom")
              (tab +:+ "a" +:+ String nl (tab +:+ "bcd" +:+ tab +:+ String nl ("e" +:+ tab)))
              2 3) as (e & He & _ & _ & Hmsg & _).
  - by vm_compute.
  - exists "2", "3", " boom". by vm_compute.
  - by vm_compute.
  - by vm_compute.
  - exists e. split; [exact He|exact Hmsg].
Defined.

(** C3.  [ErrorLine] is not total on located messages that pass its
    bounds checks ([1 <= k <= N], [c <= len(line k)]): for [k = 1] the
    look-up of the preceding line indexes the line array at [-1]; for
    [k = N] the look-up of the trailing line indexes it at [N]; for
    [c = 0] the caret padding asks [strings.Repeat] for [-1] copies.
    Each of these panics instead of returning a wrapped error. *)
Theorem ErrorLine_panics errIn genData k c :
  go_string genData ->
  go_slice (strings.Split genData nl) ->
  locator (Error errIn) k c ->
  let lines := strings.Split genData nl in
  1 <= k <= len lines ->
  c <= strlen (line_at lines (k - 1)) ->
  (k = 1 -> ErrorLine errIn genData = Panic (IndexOutOfRange (-1) (len lines))) /\
  (k = len lines -> 2 <= k -> 1 <= c ->
     ErrorLine errIn genData = Panic (IndexOutOfRange (len lines) (len lines))) /\
  (c = 0 -> 2 <= k -> ErrorLine errIn genData = Panic (NegativeRepeat (-1))) /\
  (k = 1 \/ k = len lines \/ c = 0 -> panics (ErrorLine errIn genData)).
Proof.
  intros Hgo Hsl Hloc lines Hk Hc.
  pose proof (line_at_strlen genData (k - 1)) as Hline. fold lines in Hline.
  unfold go_string, go_slice in *. fold lines in Hsl.
  destruct Hloc as (ds1 & ds2 & rest & Hmsg & Hnk & Hnc).
  pose proof (numeral_nonneg _ _ Hnc) as Hc0.
  assert (locator (Error errIn) k c) as Hloc by (by exists ds1, ds2, rest).
  assert (ErrorLine errIn genData =
            before ← index lines (k - 2);
            pad ← strings.Repeat " " (c - 1);
            after ← index lines k;
            Ret (errors.Wrap errIn
                   (String nl (strings.Trim before tab)
                    +:+ String nl (strings.Trim (line_at lines (k - 1)) tab)
                    +:+ String nl pad +:+ "^^^^^"
                    +:+ String nl (strings.Trim after tab)))) as ->.
  { rewrite (ErrorLine_located errIn genData k c Hloc). fold lines. cbv zeta.
    rewrite decide_True by lia. rewrite decide_False by lia.
    rewrite (index_line_at lines (k - 1)) by lia. cbn [mbind outcome_bind].
    rewrite decide_True by lia. by rewrite decide_False by lia. }
  assert (k = 1 -> (before ← index lines (k - 2); pad ← strings.Repeat " " (c - 1);
                    after ← index lines k;
                    Ret (errors.Wrap errIn
                           (String nl (strings.Trim before tab)
                            +:+ String nl (strings.Trim (line_at lines (k - 1)) tab)
                            +:+ String nl pad +:+ "^^^^^"
                            +:+ String nl (strings.Trim after tab))))
                   = Panic (IndexOutOfRange (-1) (len lines))) as H1.
  { intros ->. by rewrite (index_Panic lines (1 - 2)) by lia. }
  assert (c = 0 -> 2 <= k ->
          (before ← index lines (k - 2); pad ← strings.Repeat " " (c - 1);
           after ← index lines k;
           Ret (errors.Wrap errIn
                  (String nl (strings.Trim before tab)
                   +:+ String nl (strings.Trim (line_at lines (k - 1)) tab)
                   +:+ String nl pad +:+ "^^^^^"
                   +:+ String nl (strings.Trim after tab))))
          = Panic (NegativeRepeat (-1))) as H0.
  { intros -> Hk2. rewrite (index_line_at lines (k - 2)) by lia. done. }
  assert (k = len lines -> 2 <= k -> 1 <= c ->
          (before ← index lines (k - 2); pad ← strings.Repeat " " (c - 1);
           after ← index lines k;
           Ret (errors.Wrap errIn
                  (String nl (strings.Trim before tab)
                   +:+ String nl (strings.Trim (line_at lines (k - 1)) tab)
                   +:+ String nl pad +:+ "^^^^^"
                   +:+ String nl (strings.Trim after tab))))
          = Panic (IndexOutOfRange (len lines) (len lines))) as HN.
  { intros Hkn Hk2 Hc1. rewrite (index_line_at lines (k - 2)) by lia.
    cbn [mbind outcome_bind]. unfold strings.Repeat. rewrite decide_False by lia.
    cbn [mbind outcome_bind]. rewrite (index_Panic lines k) by lia. by rewrite Hkn. }
  repeat split; [done..|].
  intros Hcase. unfold panics.
  destruct (decide (k = 1)) as [?|?]; [by eauto|].
  destruct (decide (c = 0)) as [?|?]; [apply H0 in e; [by eauto|lia]|].
  destruct Hcase as [?|[?|?]]; [done| |done]. eexists. apply HN; lia.
Qed.

Lemma ErrorLine_panics_witness :
  ErrorLine (errors.New "1:1: boom") (String "a" (String nl "b"))
  = Panic (IndexOutOfRange (-1) 2).
Proof.
  apply (ErrorLine_panics (errors.New "1:1: boom") (String "a" (String nl "b")) 1 1).
  - by vm_compute.
  - by vm_compute.
  - exists "1", "1", " boom". by vm_compute.
  - by vm_compute.
  - by vm_compute.
  - reflexivity.
Defined.

(** C5, as stated, fails on a locator too large for an [int]: the line
    number [2^63] exceeds the single line of the text, and the column
    [2^63] exceeds the length of line 1, yet the results are the
    "can't unparse" errors, which report neither the line count nor
    "byte num not found". *)
Lemma ErrorLine_bounds_counterexample :
  let e1 := errors.New "9223372036854775808:1: boom" in
  let e2 := errors.New "1:9223372036854775808: boom" in
  (locator (Error e1) (2 ^ 63) 1 /\
   len (strings.Split "a" nl) < 2 ^ 63 /\
   ErrorLine e1 "a" = Ret (errors.Wrap e1 "can't unparse error line num") /\
   ErrorLine e1 "a" <>
     Ret (errors.Wrap e1 ("line num " +:+ strconv.Itoa (2 ^ 63) +:+ " not found (total "
                          +:+ strconv.Itoa (len (strings.Split "a" nl)) +:+ ")"))) /\
  (locator (Error e2) 1 (2 ^ 63) /\
   strlen (line_at (strings.Split "a" nl) 0) < 2 ^ 63 /\
   ErrorLine e2 "a" = Ret (errors.Wrap e2 "can't unparse error byte num in line: a") /\
   ErrorLine e2 "a" <> Ret (errors.Wrap e2 "byte num not found in line: a")).
Proof.
  cbv zeta. split; (split; [|split; [|split]]).
  - exists "9223372036854775808", "1", " boom". by vm_compute.
  - by vm_compute.
  - by vm_compute.
  - by vm_compute.
  - exists "1", "9223372036854775808", " boom". by vm_compute.
  - by vm_compute.
  - by vm_compute.
  - by vm_compute.
Qed.

(** C5, amended.  [ErrorLine] never discards the original error.  A
    message without a leading [line:col:] locator gives the fallback
    "cant parse error message".  For a locator [k:c:]: a line number
    that fits an [int] and exceeds the number [N] of lines gives an
    error reporting [k] and [N], never an out-of-range fault; a line
    number too large for an [int] gives "can't unparse error line num";
    with [1 <= k <= N], a column that fits an [int] and exceeds the
    length of line [k] gives "byte num not found in line: " and that
    line, and a column too large for an [int] gives "can't unparse error
    byte num in line: " and that line.  Each of these errors, and every
    error [ErrorLine] returns at all, wraps the original one: it is
    [errors.Wrap] of it, has its root cause, and its message ends with
    the original message. *)
Theorem ErrorLine_wraps errIn genData :
  let lines := strings.Split genData nl in
  ((forall k c, ~ locator (Error errIn) k c) ->
   ErrorLine errIn genData = Ret (errors.Wrap errIn "cant parse error message")) /\
  (forall k c, locator (Error errIn) k c ->
     (k <= MaxInt -> len lines < k ->
      ErrorLine errIn genData =
        Ret (errors.Wrap errIn
               ("line num " +:+ strconv.Itoa k +:+ " not found (total "
                +:+ strconv.Itoa (len lines) +:+ ")"))) /\
     (MaxInt < k ->
      ErrorLine errIn genData = Ret (errors.Wrap errIn "can't unparse error line num")) /\
     (1 <= k <= len lines -> k <= MaxInt -> c <= MaxInt ->
      strlen (line_at lines (k - 1)) < c ->
      ErrorLine errIn genData =
        Ret (errors.Wrap errIn ("byte num not found in line: " +:+ line_at lines (k - 1)))) /\
     (1 <= k <= len lines -> k <= MaxInt -> MaxInt < c ->
      ErrorLine errIn genData =
        Ret (errors.Wrap errIn
               ("can't unparse error byte num in line: " +:+ line_at lines (k - 1))))) /\
  (forall e, ErrorLine errIn genData = Ret e ->
     exists msg, e = errors.Wrap errIn msg /\
                 errors.Cause e = errors.Cause errIn /\
                 Error e = msg +:+ ": " +:+ Error errIn).
Proof.
  intros lines. split; [apply ErrorLine_no_locator|]. split.
  - intros k c Hloc. rewrite (ErrorLine_located errIn genData k c Hloc).
    fold lines. cbv zeta. repeat split.
    + intros Hk Hlt. rewrite decide_True by done. by rewrite decide_True by done.
    + intros Hk. by rewrite decide_False by lia.
    + intros Hk Hki Hci Hc. rewrite decide_True by done. rewrite decide_False by lia.
      rewrite (index_line_at lines (k - 1)) by lia. cbn [mbind outcome_bind].
      rewrite decide_True by done. by rewrite decide_True by done.
    + intros Hk Hki Hci. rewrite decide_True by done. rewrite decide_False by lia.
      rewrite (index_line_at lines (k - 1)) by lia. cbn [mbind outcome_bind].
      by rewrite decide_False by lia.
  - intros e He. destruct (ErrorLine_Ret_wraps errIn genData e He) as [msg ->].
    by exists msg.
Qed.

Lemma ErrorLine_wraps_witness :
  ErrorLine (errors.New "7:1: boom") "a"
  = Ret (errors.Wrap (errors.New "7:1: boom") "line num 7 not found (total 1)") /\
  ErrorLine (errors.New "1:5: boom") "a"
  = Ret (errors.Wrap (errors.New "1:5: boom") "byte num not found in line: a") /\
  ErrorLine (errors.New "boom") "a"
  = Ret (errors.Wrap (errors.New "boom") "cant parse error message").
Proof.
  split; [|split].
  - destruct (ErrorLine_wraps (errors.New "7:1: boom") "a") as (_ & Hloc & _).
    destruct (Hloc 7 1) as (Hline & _).
    + exists "7", "1", " boom". by vm_compute.
    + apply Hline; by vm_compute.
  - destruct (ErrorLine_wraps (errors.New "1:5: boom") "a") as (_ & Hloc & _).
    destruct (Hloc 1 5) as (_ & _ & Hcol & _).
    + exists "1", "5", " boom". by vm_compute.
    + apply Hcol; by vm_compute.
  - destruct (ErrorLine_wraps (errors.New "boom") "a") as (Hno & _).
    apply Hno. intros k c (ds1 & ds2 & rest & Hmsg & [Hne Hk] & _).
    destruct ds1 as [|a ds1]; [done|].
    cbn in Hmsg. injection Hmsg as Ha Hrest. subst a.
    by vm_compute in Hk.
Defined.

(** ** Computations with events *)

Section run_laws.

Context `{ds.Types}.

Lemma run_eta {A} (m : run A) : Run (events m) (result m) = m.
Proof. by destruct m. Qed.

Lemma result_bind {A B} (f : A -> run B) (m : run A) :
  result (m ≫= f) = result m ≫= (fun a => result (f a)).
Proof. unfold mbind at 1, run_bind. by destruct (result m). Qed.

Lemma events_bind {A B} (f : A -> run B) (m : run A) :
  events (m ≫= f) =
  events m ++ match result m with Ret a => events (f a) | Panic _ => [] end.
Proof.
  unfold mbind, run_bind. destruct (result m); cbn [events]; [done|].
  by rewrite app_nil_r.
Qed.

Lemma run_bind_ret {A B} (f : A -> run B) (a : A) : mret a ≫= f = f a.
Proof. unfold mbind, run_bind, mret, run_ret. cbn. apply run_eta. Qed.

Lemma run_bind_Ret {A B} (f : A -> run B) (m : run A) (a : A) :
  result m = Ret a -> m ≫= f = Run (events m ++ events (f a)) (result (f a)).
Proof. intros Hm. unfold mbind, run_bind. by rewrite Hm. Qed.

Lemma run_bind_assoc {A B C} (f : A -> run B) (g : B -> run C) (m : run A) :
  (m ≫= f) ≫= g = m ≫= (fun a => f a ≫= g).
Proof.
  destruct m as [ev [a|p]]; unfold mbind, run_bind; cbn [events result]; [|done].
  destruct (f a) as [ev' [b|p]]; cbn [events result]; [|done].
  by rewrite app_assoc.
Qed.

End run_laws.

(** ** The backend dispatcher *)

Section dispatch.

Context `{ds.Types}.
Variable GenerateOctopus :
  PkgData -> gmap string bytes.Buffer * option arerror.ErrGeneratorPhases.t.
Variable imports_Process : string -> string * option error.
Variable range_order : nat -> gmap string bytes.Buffer -> list (string * bytes.Buffer).

Local Abbreviation switch := (switch_backend GenerateOctopus).
Local Abbreviation inner := (range_generated imports_Process).
Local Abbreviation outer := (range_backends GenerateOctopus imports_Process range_order).
Local Abbreviation generate := (Generate GenerateOctopus imports_Process range_order).
Local Abbreviation PublicName cl := (ds.PublicName (ds.Namespace cl)).
Local Abbreviation PackageName cl := (ds.PackageName (ds.Namespace cl)).
Local Abbreviation file_error := arerror.ErrGeneratorFile.mk.

Implicit Types (cl : ds.RecordPackage) (linkObject : gmap string ds.RecordPackage).
Implicit Types (appInfo backend name : string) (ret : list GenerateFile).

(** *** The [switch] *)

Lemma switch_unknown appInfo cl linkObject backend :
  backend <> "tarantool15" -> backend <> "octopus" -> backend <> "tarantool16" ->
  backend <> "tarantool2" -> backend <> "postgres" ->
  switch appInfo cl linkObject backend =
    Run [] (Ret (inr (FileError (file_error (PublicName cl) backend ""
                                   arerror.ErrGeneratorBackendUnknown)))).
Proof. intros. unfold switch_backend. by rewrite !decide_False by done. Qed.

Lemma switch_not_implemented appInfo cl linkObject backend :
  backend = "tarantool16" \/ backend = "tarantool2" \/ backend = "postgres" ->
  switch appInfo cl linkObject backend =
    Run [] (Ret (inr (FileError (file_error (PublicName cl) backend ""
                                   arerror.ErrGeneratorBackendNotImplemented)))).
Proof. by intros [-> | [-> | ->]]. Qed.

Lemma switch_implemented appInfo cl linkObject backend :
  backend = "tarantool15" \/ backend = "octopus" ->
  let params := set_LinkedObject linkObject (NewPkgData appInfo cl) in
  switch appInfo cl linkObject backend =
    Run [LogPrintf cl; CallGenerateOctopus backend params]
        (Ret match (GenerateOctopus params).2 with
             | Some err =>
                 inr (PhasesError (arerror.ErrGeneratorPhases.set_Name (PublicName cl) err))
             | None => inl (GenerateOctopus params).1
             end).
Proof.
  intros Hb params.
  assert (switch appInfo cl linkObject backend =
            (_ ← emit (LogPrintf cl);
             _ ← emit (CallGenerateOctopus backend params);
             let '(generated, err) := GenerateOctopus params in
             match err with
             | Some err =>
                 mret (inr (PhasesError
                              (arerror.ErrGeneratorPhases.set_Name (PublicName cl) err)))
             | None => mret (inl generated)
             end)) as ->.
  { by destruct Hb as [-> | ->]. }
  by destruct (GenerateOctopus params) as [generated [err|]].
Qed.

(** The [switch] does not panic; it calls the backend generator for
    the two implemented identifiers only; its errors carry the display
    name of the package. *)
Lemma switch_cases appInfo cl linkObject backend :
  exists r, result (switch appInfo cl linkObject backend) = Ret r /\
    (forall err, r = inr err -> diagnostic_name err = PublicName cl) /\
    (forall b params,
       CallGenerateOctopus b params ∈ events (switch appInfo cl linkObject backend) ->
       b = backend /\ (backend = "tarantool15" \/ backend = "octopus")).
Proof.
  destruct (decide (backend = "tarantool15" \/ backend = "octopus")) as [Hb|Hb].
  - rewrite (switch_implemented _ _ _ _ Hb). cbv zeta. cbn [result events].
    eexists. split; [done|]. split.
    + intros err. destruct (GenerateOctopus _).2; intros; by simplify_eq.
    + intros b params. rewrite !elem_of_cons, elem_of_nil.
      intros [?|[?|[]]]; by simplify_eq.
  - destruct (decide (backend = "tarantool16" \/ backend = "tarantool2"
                      \/ backend = "postgres")) as [Hn|Hn].
    + rewrite (switch_not_implemented _ _ _ _ Hn). cbn [result events].
      eexists. split; [done|]. split; [intros; by simplify_eq|].
      intros b params. by rewrite elem_of_nil.
    + rewrite switch_unknown by tauto. cbn [result events].
      eexists. split; [done|]. split; [intros; by simplify_eq|].
      intros b params. by rewrite elem_of_nil.
Qed.

(** *** The loop over the outputs of one backend *)

Lemma inner_cons_ok cl backend name data generated ret :
  (imports_Process (bytes.Bytes data)).2 = None ->
  inner cl backend ((name, data) :: generated) ret =
    Run (CallImportsProcess (bytes.Bytes data)
           :: events (inner cl backend generated
                        (ret ++ [artifact imports_Process cl backend (name, data)])))
        (result (inner cl backend generated
                   (ret ++ [artifact imports_Process cl backend (name, data)]))).
Proof.
  intros Hok. cbn [range_generated]. unfold artifact. cbn [fst snd].
  destruct (imports_Process (bytes.Bytes data)) as [formatted err].
  cbn [fst snd] in *. subst err. by rewrite (run_bind_Ret _ _ tt).
Qed.

Lemma inner_cons_fail cl backend name data generated ret err :
  (imports_Process (bytes.Bytes data)).2 = Some err ->
  inner cl backend ((name, data) :: generated) ret =
    Run [CallImportsProcess (bytes.Bytes data)]
        (e ← ErrorLine err (bytes.Bytes data);
         Ret (inr (FileError (file_error (PublicName cl) backend (name +:+ ".go")
                                (arerror.Underlying e))))).
Proof.
  intros Hfail. cbn [range_generated].
  destruct (imports_Process (bytes.Bytes data)) as [formatted err'].
  cbn [fst snd] in *. subst err'.
  rewrite (run_bind_Ret _ _ tt) by done. cbn [events emit].
  unfold lift. by destruct (ErrorLine err (bytes.Bytes data)).
Qed.

(** Outputs that all format leave their artifacts, in order. *)
Lemma inner_app_ok cl backend done generated ret :
  Forall (fun output => (imports_Process (bytes.Bytes output.2)).2 = None) done ->
  inner cl backend (done ++ generated) ret =
    Run ((CallImportsProcess ∘ bytes.Bytes ∘ snd <$> done)
           ++ events (inner cl backend generated
                        (ret ++ (artifact imports_Process cl backend <$> done))))
        (result (inner cl backend generated
                   (ret ++ (artifact imports_Process cl backend <$> done)))).
Proof.
  intros Hdone. revert ret.
  induction Hdone as [|[name data] done Hok _ IH]; intros ret.
  - cbn [app fmap list_fmap]. by rewrite app_nil_r, run_eta.
  - cbn [app]. rewrite (inner_cons_ok _ _ _ _ _ _ Hok), IH.
    cbn [events result fmap list_fmap app compose snd]. by rewrite <-app_assoc.
Qed.

Lemma inner_ok cl backend done ret :
  Forall (fun output => (imports_Process (bytes.Bytes output.2)).2 = None) done ->
  inner cl backend done ret =
    Run (CallImportsProcess ∘ bytes.Bytes ∘ snd <$> done)
        (Ret (inl (ret ++ (artifact imports_Process cl backend <$> done)))).
Proof.
  intros Hdone. rewrite <-(app_nil_r done) at 1.
  rewrite (inner_app_ok _ _ _ _ _ Hdone). cbn [range_generated].
  by rewrite app_nil_r.
Qed.

Lemma inner_error_name cl backend generated ret err :
  result (inner cl backend generated ret) = Ret (inr err) ->
  diagnostic_name err = PublicName cl.
Proof.
  revert ret. induction generated as [|[name data] generated IH]; intros ret; [done|].
  destruct (imports_Process (bytes.Bytes data)).2 as [e|] eqn:Hp.
  - rewrite (inner_cons_fail _ _ _ _ _ _ _ Hp). cbn [result].
    destruct (ErrorLine _ _); cbn [mbind outcome_bind]; intros; by simplify_eq.
  - rewrite (inner_cons_ok _ _ _ _ _ _ Hp). cbn [result]. apply IH.
Qed.

Lemma inner_calls cl backend generated ret b params :
  CallGenerateOctopus b params ∉ events (inner cl backend generated ret).
Proof.
  revert ret. induction generated as [|[name data] generated IH]; intros ret.
  - cbn. apply not_elem_of_nil.
  - destruct (imports_Process (bytes.Bytes data)).2 as [e|] eqn:Hp.
    + rewrite (inner_cons_fail _ _ _ _ _ _ _ Hp). cbn [events].
      rewrite elem_of_cons, elem_of_nil. by intros [?|[]].
    + rewrite (inner_cons_ok _ _ _ _ _ _ Hp). cbn [events].
      rewrite elem_of_cons. intros [?|?]; [done|]. by eapply IH.
Qed.

(** *** The loop over the backends *)

(** One turn of the outer loop, for the backend at position [i]. *)
Lemma outer_cons appInfo cl linkObject i backend backends ret :
  outer appInfo cl linkObject i (backend :: backends) ret =
    sw ← switch appInfo cl linkObject backend;
    match sw with
    | inr err => mret (inr err)
    | inl generated =>
        r ← inner cl backend (range_order i generated) ret;
        match r with
        | inr err => mret (inr err)
        | inl ret => outer appInfo cl linkObject (S i) backends ret
        end
    end.
Proof. reflexivity. Qed.

Lemma outer_cons_error appInfo cl linkObject i backend backends ret err :
  result (switch appInfo cl linkObject backend) = Ret (inr err) ->
  outer appInfo cl linkObject i (backend :: backends) ret =
    Run (events (switch appInfo cl linkObject backend)) (Ret (inr err)).
Proof.
  intros Hsw. rewrite outer_cons, (run_bind_Ret _ _ _ Hsw).
  cbn [mret run_ret events result]. by rewrite app_nil_r.
Qed.

Lemma outer_error_name appInfo cl linkObject i backends ret err :
  result (outer appInfo cl linkObject i backends ret) = Ret (inr err) ->
  diagnostic_name err = PublicName cl.
Proof.
  revert i ret. induction backends as [|backend backends IH]; intros i ret; [done|].
  rewrite outer_cons.
  destruct (switch_cases appInfo cl linkObject backend) as (sw & Hsw & Hname & _).
  rewrite (run_bind_Ret _ _ _ Hsw). cbn [result].
  destruct sw as [generated|err'];
    [|cbn [mret run_ret result]; intros; simplify_eq; by apply Hname].
  rewrite result_bind.
  destruct (result (inner cl backend (range_order i generated) ret))
    as [[ret'|err']|p] eqn:Hin; cbn [mbind outcome_bind mret run_ret result].
  - apply IH.
  - intros; simplify_eq. by eapply inner_error_name.
  - done.
Qed.

(** Backends that all succeed hand their artifacts to the rest of the
    loop. *)
Lemma outer_app appInfo cl linkObject i pre backends ret ret0 :
  result (outer appInfo cl linkObject i pre ret) = Ret (inl ret0) ->
  outer appInfo cl linkObject i (pre ++ backends) ret =
    Run (events (outer appInfo cl linkObject i pre ret)
           ++ events (outer appInfo cl linkObject (i + length pre) backends ret0))
        (result (outer appInfo cl linkObject (i + length pre) backends ret0)).
Proof.
  revert i ret. induction pre as [|backend pre IH]; intros i ret.
  - cbn [app length range_backends mret run_ret events result].
    intros; simplify_eq. rewrite Nat.add_0_r. by rewrite run_eta.
  - cbn [app length]. rewrite !outer_cons.
    destruct (switch_cases appInfo cl linkObject backend) as (sw & Hsw & _).
    rewrite !(run_bind_Ret _ _ _ Hsw). cbn [result events].
    destruct sw as [generated|err']; [|done].
    destruct (result (inner cl backend (range_order i generated) ret))
      as [[ret'|err']|p] eqn:Hin.
    + rewrite !(run_bind_Ret _ _ _ Hin). cbn [result events]. intros Hpre.
      rewrite (IH _ _ Hpre). cbn [result events].
      replace (S i + length pre)%nat with (i + S (length pre))%nat by lia.
      by rewrite <-!app_assoc.
    + by rewrite !(run_bind_Ret _ _ _ Hin).
    + rewrite result_bind, Hin. done.
Qed.

(** The backend generator is called for no identifier but the two
    implemented ones. *)
Lemma outer_calls appInfo cl linkObject i backends ret b params :
  CallGenerateOctopus b params ∈ events (outer appInfo cl linkObject i backends ret) ->
  b = "tarantool15" \/ b = "octopus".
Proof.
  revert i ret. induction backends as [|backend backends IH]; intros i ret.
  { cbn. by rewrite elem_of_nil. }
  rewrite outer_cons.
  destruct (switch_cases appInfo cl linkObject backend) as (sw & Hsw & _ & Hcall).
  rewrite events_bind, Hsw. rewrite elem_of_app. intros [Hin|Hin].
  { destruct (Hcall _ _ Hin) as [-> ?]. done. }
  destruct sw as [generated|err']; [|by apply elem_of_nil in Hin].
  rewrite events_bind, elem_of_app in Hin. destruct Hin as [Hin|Hin].
  { by apply inner_calls in Hin. }
  destruct (result (inner _ _ _ _)) as [[ret'|err']|p]; [by eapply IH|..];
    by apply elem_of_nil in Hin.
Qed.

(** *** [Generate] *)

(** Once the backends [pre] have all succeeded, [Generate] is decided
    by the rest of the loop. *)
Lemma Generate_from appInfo cl linkObject pre backends ret0 :
  ds.Backends cl = pre ++ backends ->
  result (outer appInfo cl linkObject 0 pre []) = Ret (inl ret0) ->
  result (generate appInfo cl linkObject) =
    (r ← result (outer appInfo cl linkObject (length pre) backends ret0);
     Ret match r with
         | inl ret => (ret, None)
         | inr err => ([], Some err)
         end) /\
  events (generate appInfo cl linkObject) =
    events (outer appInfo cl linkObject 0 pre [])
    ++ events (outer appInfo cl linkObject (length pre) backends ret0).
Proof.
  intros Hb Hpre. unfold Generate. rewrite Hb, (outer_app _ _ _ _ _ _ _ _ Hpre).
  cbn [Nat.add]. rewrite result_bind, events_bind. cbn [result events].
  destruct (result (outer appInfo cl linkObject (length pre) backends ret0))
    as [[ret|err]|p]; cbn [mbind outcome_bind mret run_ret result events];
    by rewrite ?app_nil_r.
Qed.

(** C1, amended.  When the loop reaches a backend identifier that is
    none of the five known ones (the implemented [octopus] and
    [tarantool15], the recognised but unimplemented [tarantool16],
    [tarantool2] and [postgres]), that is when every backend before it
    was generated and formatted, [Generate] fails with the unknown
    backend condition carrying the display name of the package and the
    identifier, and returns no artifacts. *)
Theorem Generate_unknown_backend appInfo cl linkObject pre backend post ret0 :
  ds.Backends cl = pre ++ backend :: post ->
  result (range_backends GenerateOctopus imports_Process range_order
            appInfo cl linkObject 0 pre []) = Ret (inl ret0) ->
  backend <> "octopus" -> backend <> "tarantool15" ->
  backend <> "tarantool16" -> backend <> "tarantool2" -> backend <> "postgres" ->
  result (Generate GenerateOctopus imports_Process range_order appInfo cl linkObject) =
    Ret ([], Some (FileError (arerror.ErrGeneratorFile.mk
                                (ds.PublicName (ds.Namespace cl)) backend ""
                                arerror.ErrGeneratorBackendUnknown))).
Proof.
  intros Hb Hpre ? ? ? ? ?.
  destruct (Generate_from _ _ _ _ _ _ Hb Hpre) as [-> _].
  by rewrite (outer_cons_error _ _ _ _ _ _ _ _
                (f_equal result (switch_unknown appInfo cl linkObject backend
                                   ltac:(done) ltac:(done) ltac:(done)
                                   ltac:(done) ltac:(done)))).
Qed.

(** C4, amended.  When the loop reaches one of the recognised but
    unimplemented identifiers [tarantool16] and [tarantool2], that is
    when every backend before it was generated and formatted,
    [Generate] fails with the backend not implemented condition
    carrying the display name of the package and the identifier, and
    returns no artifacts.  Reaching it causes no event at all, and in
    no run is the backend generator, through which the rendering
    engine is reached, called for such an identifier. *)
Theorem Generate_not_implemented appInfo cl linkObject pre backend post ret0 :
  ds.Backends cl = pre ++ backend :: post ->
  result (range_backends GenerateOctopus imports_Process range_order
            appInfo cl linkObject 0 pre []) = Ret (inl ret0) ->
  backend = "tarantool16" \/ backend = "tarantool2" ->
  result (Generate GenerateOctopus imports_Process range_order appInfo cl linkObject) =
    Ret ([], Some (FileError (arerror.ErrGeneratorFile.mk
                                (ds.PublicName (ds.Namespace cl)) backend ""
                                arerror.ErrGeneratorBackendNotImplemented))) /\
  events (Generate GenerateOctopus imports_Process range_order appInfo cl linkObject) =
    events (range_backends GenerateOctopus imports_Process range_order
              appInfo cl linkObject 0 pre []) /\
  forall cl' appInfo' linkObject' params,
    CallGenerateOctopus backend params
    ∉ events (Generate GenerateOctopus imports_Process range_order appInfo' cl' linkObject').
Proof.
  intros Hb Hpre Hni.
  assert (switch appInfo cl linkObject backend =
            Run [] (Ret (inr (FileError (file_error (PublicName cl) backend ""
                                           arerror.ErrGeneratorBackendNotImplemented)))))
    as Hsw by (apply switch_not_implemented; tauto).
  destruct (Generate_from _ _ _ _ _ _ Hb Hpre) as [-> ->].
  rewrite (outer_cons_error _ _ _ _ _ _ _ _ (f_equal result Hsw)), Hsw.
  cbn [events result]. rewrite app_nil_r. repeat split.
  intros cl' appInfo' linkObject' params Hin.
  unfold Generate in Hin. rewrite events_bind, elem_of_app in Hin.
  destruct Hin as [Hin|Hin].
  - apply outer_calls in Hin. destruct Hni as [->| ->], Hin as [?|?]; done.
  - revert Hin.
    destruct (result (outer appInfo' cl' linkObject' 0 (ds.Backends cl') []))
      as [[?|?]|?]; cbn [mret run_ret events]; by rewrite elem_of_nil.
Qed.

(** Whenever [Generate] returns an error, whatever its cause, the
    artifact list it returns with it is nil, never the artifacts made
    so far, and the error carries the public display name of the
    record package. *)
Theorem Generate_failure appInfo cl linkObject ret err :
  result (Generate GenerateOctopus imports_Process range_order appInfo cl linkObject)
  = Ret (ret, Some err) ->
  ret = [] /\ diagnostic_name err = ds.PublicName (ds.Namespace cl).
Proof.
  unfold Generate. rewrite result_bind.
  destruct (result (outer appInfo cl linkObject 0 (ds.Backends cl) []))
    as [[ret'|err']|p] eqn:Hout; cbn [mbind outcome_bind mret run_ret result];
    intros; simplify_eq.
  split; [done|]. by eapply outer_error_name.
Qed.

(** C8.  For a record package whose backend list is empty, [Generate]
    returns an empty artifact list and no error, and does nothing
    else, whatever the package holds otherwise. *)
Theorem Generate_no_backends appInfo cl linkObject :
  ds.Backends cl = [] ->
  Generate GenerateOctopus imports_Process range_order appInfo cl linkObject
  = Run [] (Ret ([], None)).
Proof. intros Hb. unfold Generate. by rewrite Hb. Qed.

(** The context of a formatting failure in [Generate]: the first
    output of a backend that [imports.Process] rejects is mapped by
    [ErrorLine] against its own raw bytes. *)
Lemma Generate_format_failure appInfo cl linkObject pre backend post ret0
    generated done name data outputs err :
  ds.Backends cl = pre ++ backend :: post ->
  result (outer appInfo cl linkObject 0 pre []) = Ret (inl ret0) ->
  backend = "tarantool15" \/ backend = "octopus" ->
  GenerateOctopus (set_LinkedObject linkObject (NewPkgData appInfo cl)) = (generated, None) ->
  range_order (length pre) generated = done ++ (name, data) :: outputs ->
  Forall (fun output => (imports_Process (bytes.Bytes output.2)).2 = None) done ->
  (imports_Process (bytes.Bytes data)).2 = Some err ->
  result (generate appInfo cl linkObject) =
    e ← ErrorLine err (bytes.Bytes data);
    Ret ([], Some (FileError (file_error (PublicName cl) backend (name +:+ ".go")
                                (arerror.Underlying e)))).
Proof.
  intros Hb Hpre Himpl Hgen Horder Hdone Hfail.
  destruct (Generate_from _ _ _ _ _ _ Hb Hpre) as [-> _].
  rewrite outer_cons, (switch_implemented _ _ _ _ Himpl). cbv zeta.
  rewrite Hgen. cbn [fst snd].
  rewrite (run_bind_Ret _ _ (inl generated)) by done. cbn [result].
  rewrite Horder, (inner_app_ok _ _ _ _ _ Hdone), (inner_cons_fail _ _ _ _ _ _ _ Hfail).
  rewrite result_bind. cbn [result].
  by destruct (ErrorLine err (bytes.Bytes data)).
Qed.

(** An implemented backend with a single output, rendered and
    formatted, leaves exactly one file. *)
Lemma Generate_single_output appInfo cl linkObject backend key data :
  (forall i m, range_order i m ≡ₚ map_to_list m) ->
  ds.Backends cl = [backend] ->
  backend = "tarantool15" \/ backend = "octopus" ->
  GenerateOctopus (set_LinkedObject linkObject (NewPkgData appInfo cl))
  = ({[ key := data ]}, None) ->
  (imports_Process (bytes.Bytes data)).2 = None ->
  result (generate appInfo cl linkObject) =
    Ret ([ {| Dir := PackageName cl; Name := key +:+ ".go"; Backend := backend;
              Data := (imports_Process (bytes.Bytes data)).1 |} ], None).
Proof.
  intros Hperm Hb Himpl Hgen Hok.
  destruct (Generate_from appInfo cl linkObject [] [backend] []) as [-> _]; [done..|].
  rewrite outer_cons, (switch_implemented _ _ _ _ Himpl). cbv zeta.
  rewrite Hgen. cbn [fst snd length].
  rewrite (run_bind_Ret _ _ (inl {[ key := data ]})) by done. cbn [result].
  assert (range_order 0 {[ key := data ]} = [(key, data)]) as ->.
  { apply Permutation_singleton_r. by rewrite Hperm, map_to_list_singleton. }
  rewrite (inner_ok cl backend [(key, data)] []) by (by repeat constructor).
  rewrite (run_bind_Ret _ _ (inl ([] ++ (artifact imports_Process cl backend <$> [(key, data)]))))
    by done.
  reflexivity.
Qed.

End dispatch.

(** C1, as stated, fails: [postgres] is none of the four identifiers it
    lists, yet [Generate] answers backend not implemented, not unknown
    backend; and an unknown identifier behind one that already fails is
    never reached. *)
Lemma Generate_unknown_backend_counterexample :
  let generate := Generate example.octopus example.format_ok example.order "info" in
  (generate (example.package ["postgres"]) ∅).(result) =
    Ret ([], Some (FileError (arerror.ErrGeneratorFile.mk "Gift" "postgres" ""
                                arerror.ErrGeneratorBackendNotImplemented))) /\
  (generate (example.package ["postgres"]) ∅).(result) <>
    Ret ([], Some (FileError (arerror.ErrGeneratorFile.mk "Gift" "postgres" ""
                                arerror.ErrGeneratorBackendUnknown))) /\
  (generate (example.package ["tarantool16"; "nosuch"]) ∅).(result) <>
    Ret ([], Some (FileError (arerror.ErrGeneratorFile.mk "Gift" "nosuch" ""
                                arerror.ErrGeneratorBackendUnknown))).
Proof. cbv zeta. split; [|split]; by vm_compute. Qed.

Lemma Generate_unknown_backend_witness :
  (Generate example.octopus example.format_ok example.order "info"
     (example.package ["octopus"; "nosuch"]) ∅).(result) =
  Ret ([], Some (FileError (arerror.ErrGeneratorFile.mk "Gift" "nosuch" ""
                              arerror.ErrGeneratorBackendUnknown))).
Proof.
  eapply (Generate_unknown_backend example.octopus example.format_ok example.order
            "info" (example.package ["octopus"; "nosuch"]) ∅ ["octopus"] "nosuch" []).
  - reflexivity.
  - vm_compute. reflexivity.
  - done.
  - done.
  - done.
  - done.
  - done.
Defined.

(** C4, as stated, fails: a package whose backend list contains
    [tarantool16] behind an unknown identifier fails with the unknown
    backend condition, carrying that other identifier. *)
Lemma Generate_not_implemented_counterexample :
  (Generate example.octopus example.format_ok example.order "info"
     (example.package ["nosuch"; "tarantool16"]) ∅).(result) =
    Ret ([], Some (FileError (arerror.ErrGeneratorFile.mk "Gift" "nosuch" ""
                                arerror.ErrGeneratorBackendUnknown))) /\
  (Generate example.octopus example.format_ok example.order "info"
     (example.package ["nosuch"; "tarantool16"]) ∅).(result) <>
    Ret ([], Some (FileError (arerror.ErrGeneratorFile.mk "Gift" "tarantool16" ""
                                arerror.ErrGeneratorBackendNotImplemented))).
Proof. split; by vm_compute. Qed.

Lemma Generate_not_implemented_witness :
  (Generate example.octopus example.format_ok example.order "info"
     (example.package ["octopus"; "tarantool2"]) ∅).(result) =
  Ret ([], Some (FileError (arerror.ErrGeneratorFile.mk "Gift" "tarantool2" ""
                              arerror.ErrGeneratorBackendNotImplemented))).
Proof.
  eapply (Generate_not_implemented example.octopus example.format_ok example.order
            "info" (example.package ["octopus"; "tarantool2"]) ∅ ["octopus"] "tarantool2" []).
  - reflexivity.
  - vm_compute. reflexivity.
  - by right.
Defined.

Lemma Generate_failure_witness :
  let err := FileError (arerror.ErrGeneratorFile.mk "Gift" "octopus" "octopus.go"
                          (arerror.Underlying
                             (errors.Wrap (errors.New "2:1: expected declaration")
                                (String nl "a" +:+ String nl "b" +:+ String nl "^^^^^"
                                 +:+ String nl "c")))) in
  (Generate example.octopus example.format_fails example.order "info"
     (example.package ["octopus"]) ∅).(result) = Ret ([], Some err) /\
  diagnostic_name err = "Gift".
Proof.
  cbv zeta.
  assert ((Generate example.octopus example.format_fails example.order "info"
             (example.package ["octopus"]) ∅).(result) =
          Ret ([], Some (FileError (arerror.ErrGeneratorFile.mk "Gift" "octopus" "octopus.go"
                          (arerror.Underlying
                             (errors.Wrap (errors.New "2:1: expected declaration")
                                (String nl "a" +:+ String nl "b" +:+ String nl "^^^^^"
                                 +:+ String nl "c"))))))) as Hrun.
  { vm_compute. reflexivity. }
  split; [exact Hrun|].
  exact (proj2 (Generate_failure example.octopus example.format_fails example.order
                  "info" (example.package ["octopus"]) ∅ _ _ Hrun)).
Defined.


Lemma Generate_no_backends_witness :
  Generate example.octopus example.format_ok example.order "info" (example.package []) ∅
  = Run [] (Ret ([], None)).
Proof.
  apply (Generate_no_backends example.octopus example.format_ok example.order
           "info" (example.package []) ∅).
  reflexivity.
Defined.

(** ** Rendering, and the context of a diagnostic *)

(** The banner is seven whole lines: behind it, line [i] of a template
    body is line [7 + i] of the text that is parsed. *)
Lemma SplitAfter_disclaimer tmpl :
  strings.SplitAfter (disclaimer +:+ tmpl) nl
  = take 7 (strings.SplitAfter disclaimer nl) ++ strings.SplitAfter tmpl nl
  /\ length (take 7 (strings.SplitAfter disclaimer nl)) = 7%nat.
Proof. split; by vm_compute. Qed.

Section rendering.

Context `{ds.Types} `{template.Engine}.
Variable funcs : template.FuncMap.
Variable OctopusTemplateFuncs : template.FuncMap.
Variable MetaTmpl : string.
Variable getTmplErrorLine : list string -> string -> string * option error.
Variable GenerateOctopus :
  PkgData -> gmap string bytes.Buffer * option arerror.ErrGeneratorPhases.t.
Variable imports_Process : string -> string * option error.
Variable range_order : nat -> gmap string bytes.Buffer -> list (string * bytes.Buffer).

Local Abbreviation render := (GenerateByTmpl funcs OctopusTemplateFuncs getTmplErrorLine).
Local Abbreviation parse text :=
  (template.Parse TemplateName [funcs; OctopusTemplateFuncs] text).
Local Abbreviation meta :=
  (GenerateMeta funcs OctopusTemplateFuncs MetaTmpl getTmplErrorLine imports_Process).
Local Abbreviation generate := (Generate GenerateOctopus imports_Process range_order).
Local Abbreviation outer := (range_backends GenerateOctopus imports_Process range_order).

(** C9.  [GenerateByTmpl] returns a diagnostic of phase [parse]
    exactly when parsing the template behind the banner fails, and one
    of phase [execute] exactly when the template parses and its
    evaluation against the parameter object fails.  Either diagnostic
    holds the original error, and its lines come from
    [getTmplErrorLine] on the lines of the banner followed by the
    template, where the banner takes the first seven, so that line
    numbers are offset by it.  When both steps succeed no error is
    returned. *)
Theorem GenerateByTmpl_phases {W} `{io.Writer W} {P : Type}
    (dstFile : W) (params : P) (name tmpl : string) :
  let text := disclaimer +:+ tmpl in
  let parsed := template.Parse TemplateName [funcs; OctopusTemplateFuncs] text in
  let r :=
    (GenerateByTmpl funcs OctopusTemplateFuncs getTmplErrorLine dstFile params name tmpl).2 in
  let context err :=
    match getTmplErrorLine (strings.SplitAfter text nl) (Error err) with
    | (_, Some errgetline) => Error errgetline
    | (tmplLines, None) => tmplLines
    end in
  ((exists d, r = Some d /\ arerror.ErrGeneratorPhases.Phase d = "parse")
   <-> exists err, parsed = inr err) /\
  ((exists d, r = Some d /\ arerror.ErrGeneratorPhases.Phase d = "execute")
   <-> exists t written err,
         parsed = inl t /\ template.Execute P t params = (written, Some err)) /\
  (forall d, r = Some d ->
     exists err,
       (parsed = inr err \/
        exists t written,
          parsed = inl t /\ template.Execute P t params = (written, Some err)) /\
       arerror.ErrGeneratorPhases.Err d = err /\
       arerror.ErrGeneratorPhases.Backend d = name /\
       arerror.ErrGeneratorPhases.TmplLines d = context err) /\
  (strings.SplitAfter text nl
   = take 7 (strings.SplitAfter disclaimer nl) ++ strings.SplitAfter tmpl nl) /\
  (r = None <->
   exists t written,
     parsed = inl t /\ template.Execute P t params = (written, None)).
Proof.
  cbv zeta. unfold GenerateByTmpl, tmplErrorLines.
  destruct (parse (disclaimer +:+ tmpl)) as [t|err] eqn:Hparse; cbn [snd];
    [destruct (template.Execute P t params) as [written [err|]] eqn:Hexec; cbn [snd]|].
  - (* parsed, execution failed *)
    split; [|split; [|split; [|split]]].
    + split; [intros (d & Hd & Hph); by simplify_eq|by intros [? ?]].
    + split; [intros _; by exists t, written, err|]. intros _. eexists. by split.
    + intros d Hd. simplify_eq. exists err. split; [right; by exists t, written|].
      cbn. by destruct (getTmplErrorLine _ _) as [? [?|]].
    + apply SplitAfter_disclaimer.
    + split; [done|]. intros (t' & written' & Ht & Hw). simplify_eq. congruence.
  - (* parsed and executed *)
    split; [|split; [|split; [|split]]].
    + split; [by intros (? & ? & ?)|by intros [? ?]].
    + split; [by intros (? & ? & ?)|].
      intros (t' & written' & err' & Ht & Hw). simplify_eq. congruence.
    + by intros d Hd.
    + apply SplitAfter_disclaimer.
    + split; [intros _; by exists t, written|done].
  - (* parsing failed *)
    split; [|split; [|split; [|split]]].
    + split; [by eauto|]. intros _. eexists. by split.
    + split; [intros (d & Hd & Hph); by simplify_eq|by intros (? & ? & ? & ? & ?)].
    + intros d Hd. simplify_eq. exists err. split; [by left|].
      cbn. by destruct (getTmplErrorLine _ _) as [? [?|]].
    + apply SplitAfter_disclaimer.
    + split; [done|]. by intros (? & ? & ? & ?).
Qed.

(** The context of a formatting failure in [GenerateMeta]: the bytes
    the template wrote. *)
Lemma GenerateMeta_format_failure (params : MetaData) t written err :
  parse (disclaimer +:+ MetaTmpl) = inl t ->
  template.Execute MetaData t params = (written, None) ->
  (imports_Process written).2 = Some err ->
  meta params =
    e ← ErrorLine err written;
    Ret ([], Some (arerror.ErrGeneratorFile.mk "repository.go" "meta" "repository.go"
                     (arerror.Underlying e))).
Proof.
  intros Hparse Hexec Hfail. unfold GenerateMeta, GenerateByTmpl.
  rewrite Hparse, Hexec.
  change (bytes.Bytes (bufio.wr (bufio.Flush (io.Write (bufio.NewWriter "") written))))
    with written.
  destruct (imports_Process written) as [data err']. cbn [snd] in Hfail. by subst err'.
Qed.

(** C10.  Whenever [imports.Process] rejects a rendered buffer, in
    [Generate] for a backend as in [GenerateMeta], the error of the
    resulting diagnostic is the one [ErrorLine] builds from the
    formatter's error and the raw rendered bytes that were handed to
    the formatter, not from the template text: the locator is looked
    up in that buffer. *)
Theorem format_failure_context :
  (forall appInfo cl linkObject pre backend post ret0 generated done name data outputs err,
     ds.Backends cl = pre ++ backend :: post ->
     result (range_backends GenerateOctopus imports_Process range_order
            appInfo cl linkObject 0 pre []) = Ret (inl ret0) ->
     backend = "tarantool15" \/ backend = "octopus" ->
     GenerateOctopus (set_LinkedObject linkObject (NewPkgData appInfo cl))
     = (generated, None) ->
     range_order (length pre) generated = done ++ (name, data) :: outputs ->
     Forall (fun output => (imports_Process (bytes.Bytes output.2)).2 = None) done ->
     (imports_Process (bytes.Bytes data)).2 = Some err ->
     result (Generate GenerateOctopus imports_Process range_order appInfo cl linkObject) =
       e ← ErrorLine err (bytes.Bytes data);
       Ret ([], Some (FileError (arerror.ErrGeneratorFile.mk
                                   (ds.PublicName (ds.Namespace cl)) backend
                                   (name +:+ ".go") (arerror.Underlying e))))) /\
  (forall (params : MetaData) t written err,
     template.Parse TemplateName [funcs; OctopusTemplateFuncs] (disclaimer +:+ MetaTmpl)
     = inl t ->
     template.Execute MetaData t params = (written, None) ->
     (imports_Process written).2 = Some err ->
     GenerateMeta funcs OctopusTemplateFuncs MetaTmpl getTmplErrorLine imports_Process
       params =
       e ← ErrorLine err written;
       Ret ([], Some (arerror.ErrGeneratorFile.mk "repository.go" "meta" "repository.go"
                        (arerror.Underlying e)))).
Proof.
  split.
  - intros. by eapply Generate_format_failure.
  - intros. by eapply GenerateMeta_format_failure.
Qed.

End rendering.

Lemma format_failure_context_witness :
  (Generate example.octopus example.format_fails example.order "info"
     (example.package ["octopus"]) ∅).(result) =
    (e ← ErrorLine (errors.New "2:1: expected declaration") example.raw;
     Ret ([], Some (FileError (arerror.ErrGeneratorFile.mk "Gift" "octopus" "octopus.go"
                                 (arerror.Underlying e))))) /\
  @GenerateMeta example.types example.engine tt tt "package repository"
    example.no_lines example.format_fails {| Namespaces := []; MetaAppInfo := "info" |} =
    (e ← ErrorLine (errors.New "2:1: expected declaration")
           (disclaimer +:+ "package repository");
     Ret ([], Some (arerror.ErrGeneratorFile.mk "repository.go" "meta" "repository.go"
                      (arerror.Underlying e)))).
Proof.
  destruct (@format_failure_context example.types example.engine tt tt "package repository"
              example.no_lines example.octopus example.format_fails example.order)
    as [Hgen Hmeta].
  split.
  - apply (Hgen "info" (example.package ["octopus"]) ∅ [] "octopus" []
             [] {[ "octopus" := example.raw ]} [] "octopus" example.raw []
             (errors.New "2:1: expected declaration")).
    + reflexivity.
    + reflexivity.
    + by right.
    + reflexivity.
    + vm_compute. reflexivity.
    + constructor.
    + reflexivity.
  - apply (Hmeta {| Namespaces := []; MetaAppInfo := "info" |}
             (disclaimer +:+ "package repository") (disclaimer +:+ "package repository")
             (errors.New "2:1: expected declaration")).
    + vm_compute. reflexivity.
    + reflexivity.
    + reflexivity.
Defined.

(** * Further properties of the line mapper *)

Lemma not_panics_Ret {A} (a : A) : ~ panics (Ret a).
Proof. by intros [p Hp]. Qed.

Lemma panics_Panic {A} (p : panic) : panics (@Panic A p).
Proof. by exists p. Qed.

(** On a located message, when [ErrorLine] panics. *)
Lemma ErrorLine_located_panics errIn genData k c :
  locator (Error errIn) k c ->
  let lines := strings.Split genData nl in
  panics (ErrorLine errIn genData) <->
  k <= MaxInt /\ k <= len lines /\
  (k = 0 \/
   (c <= MaxInt /\ c <= strlen (line_at lines (k - 1)) /\
    (k = 1 \/ k = len lines \/ c = 0))).
Proof.
  intros Hloc lines.
  rewrite (ErrorLine_located errIn genData k c Hloc). fold lines. cbv zeta.
  destruct Hloc as (ds1 & ds2 & rest & _ & Hnk & Hnc).
  pose proof (numeral_nonneg _ _ Hnk) as Hk0.
  pose proof (numeral_nonneg _ _ Hnc) as Hc0.
  destruct (decide (k <= MaxInt)) as [Hk|Hk];
    [|split; [by intros ?%not_panics_Ret|intros (? & _); lia]].
  destruct (decide (len lines < k)) as [HN|HN];
    [split; [by intros ?%not_panics_Ret|intros (_ & ? & _); lia]|].
  destruct (decide (k = 0)) as [->|Hk1].
  { rewrite (index_Panic lines (0 - 1)) by lia. split; [intros _; lia|intros _].
    apply panics_Panic. }
  rewrite (index_line_at lines (k - 1)) by lia. cbn [mbind outcome_bind].
  destruct (decide (c <= MaxInt)) as [Hc|Hc];
    [|split; [by intros ?%not_panics_Ret|intros (_ & _ & [?|(? & _)]); lia]].
  destruct (decide (strlen (line_at lines (k - 1)) < c)) as [Hlen|Hlen];
    [split; [by intros ?%not_panics_Ret|intros (_ & _ & [?|(_ & ? & _)]); lia]|].
  destruct (decide (k = 1)) as [->|Hk2].
  { rewrite (index_Panic lines (1 - 2)) by lia. split; [intros _; lia|intros _].
    apply panics_Panic. }
  rewrite (index_line_at lines (k - 2)) by lia. cbn [mbind outcome_bind].
  unfold strings.Repeat. destruct (decide (c - 1 < 0)) as [Hc1|Hc1].
  { split; [intros _; lia|intros _]. apply panics_Panic. }
  cbn [mbind outcome_bind].
  destruct (decide (k = len lines)) as [HkN|HkN].
  { rewrite (index_Panic lines k) by lia. split; [intros _; lia|intros _].
    apply panics_Panic. }
  rewrite (index_line_at lines k) by lia. cbn [mbind outcome_bind].
  split; [by intros ?%not_panics_Ret|intros (_ & _ & [?|(_ & _ & [?|[?|?]])]); lia].
Qed.

(** X1.  [ErrorLine] panics exactly on the messages that begin with a
    locator [k:c:] whose line number fits an [int] and is at most the
    number [N] of lines, and for which either [k = 0], or the column
    fits an [int] and the line and is such that [k = 1], [k = N] or
    [c = 0].  On every other input it returns an error. *)
Theorem ErrorLine_panics_iff errIn genData :
  let lines := strings.Split genData nl in
  panics (ErrorLine errIn genData) <->
  exists k c,
    locator (Error errIn) k c /\
    k <= MaxInt /\ k <= len lines /\
    (k = 0 \/
     (c <= MaxInt /\ c <= strlen (line_at lines (k - 1)) /\
      (k = 1 \/ k = len lines \/ c = 0))).
Proof.
  intros lines. split.
  - intros Hp. destruct (FindStringSubmatch_cases (Error errIn)) as [(k & c & Hloc)|Hno].
    + exists k, c. split; [done|].
      by apply (ErrorLine_located_panics errIn genData k c Hloc).
    + exfalso. revert Hp. unfold ErrorLine. rewrite Hno.
      rewrite decide_False by done. apply not_panics_Ret.
  - intros (k & c & Hloc & Hcond).
    by apply (ErrorLine_located_panics errIn genData k c Hloc).
Qed.

(** X2.  On a text of fewer than three lines [ErrorLine] builds no
    snippet: every locator that passes its two bounds checks makes it
    panic. *)
Theorem ErrorLine_short_text errIn genData k c :
  go_string genData ->
  locator (Error errIn) k c ->
  let lines := strings.Split genData nl in
  len lines <= 2 ->
  k <= len lines ->
  c <= strlen (line_at lines (k - 1)) ->
  panics (ErrorLine errIn genData).
Proof.
  intros Hgo Hloc lines HN Hk Hc.
  pose proof (line_at_strlen genData (k - 1)) as Hline. fold lines in Hline.
  unfold go_string in Hgo.
  destruct (Hloc) as (ds1 & ds2 & rest & _ & Hnk & Hnc).
  pose proof (numeral_nonneg _ _ Hnk) as Hk0.
  apply (ErrorLine_located_panics errIn genData k c Hloc). fold lines.
  unfold MaxInt in *. repeat split; [lia|lia|].
  destruct (decide (k = 0)); [by left|right]. repeat split; [lia|lia|lia].
Qed.

Lemma ErrorLine_short_text_witness :
  panics (ErrorLine (errors.New "2:1: expected declaration")
            (String "a" (String nl "b"))).
Proof.
  apply (ErrorLine_short_text (errors.New "2:1: expected declaration")
           (String "a" (String nl "b")) 2 1).
  - by vm_compute.
  - exists "2", "1", " expected declaration". by vm_compute.
  - by vm_compute.
  - by vm_compute.
  - by vm_compute.
Defined.

(** X3.  [errImportsRx] matches exactly the messages that begin with a
    run of digits, a colon, a second run of digits and a colon; the
    submatches are then the matched prefix and the two runs. *)
Theorem errImportsRx_matches msg :
  (regexp.FindStringSubmatch errImportsRx msg = [] /\
   forall k c, ~ locator msg k c) \/
  (exists ds1 ds2 rest k c,
     msg = ds1 +:+ ":" +:+ ds2 +:+ ":" +:+ rest /\
     numeral ds1 k /\ numeral ds2 c /\
     regexp.FindStringSubmatch errImportsRx msg = [ds1 +:+ ":" +:+ ds2 +:+ ":"; ds1; ds2]).
Proof.
  destruct (FindStringSubmatch_cases msg) as [(k & c & ds1 & ds2 & rest & -> & Hk & Hc)|Hno].
  - right. exists ds1, ds2, rest, k, c. repeat split; [apply Hk..|apply Hc|apply Hc|].
    by apply (FindStringSubmatch_locator ds1 ds2 rest k c).
  - left. split; [done|]. intros k c (ds1 & ds2 & rest & -> & Hk & Hc).
    by rewrite (FindStringSubmatch_locator ds1 ds2 rest k c) in Hno.
Qed.

(** ** What the line mapper shows of a line, and what a line is *)

Lemma in_cutset_tab c : strings.in_cutset c tab = bool_decide (c = "009"%char).
Proof. unfold tab. cbn [strings.in_cutset]. by repeat case_decide; case_bool_decide. Qed.

Lemma app_tab_not_empty r : r +:+ tab <> "".
Proof. by destruct r. Qed.

Lemma cons_eq_app_tab c p r :
  String c p = r +:+ tab ->
  (r = "" /\ c = "009"%char /\ p = "") \/ exists r', r = String c r' /\ p = r' +:+ tab.
Proof.
  destruct r as [|e r]; intros Hr; injection Hr; intros; subst; [by left|right; eauto].
Qed.

Lemma TrimLeft_tabs s :
  exists t,
    s = strings.repeat_nat tab t +:+ strings.TrimLeft s tab /\
    forall r, strings.TrimLeft s tab <> tab +:+ r.
Proof.
  induction s as [|c s (t & Hs & Hno)].
  - by exists 0%nat.
  - cbn [strings.TrimLeft]. rewrite in_cutset_tab. case_bool_decide as Hc.
    + subst c. exists (S t). split; [|done].
      change (String "009" s
              = String "009" (strings.repeat_nat tab t +:+ strings.TrimLeft s tab)).
      by rewrite <-Hs.
    + exists 0%nat. split; [done|]. intros r Hr. injection Hr as Hr _. done.
Qed.

Lemma TrimRight_tabs s :
  exists u,
    s = strings.TrimRight s tab +:+ strings.repeat_nat tab u /\
    forall r, strings.TrimRight s tab <> r +:+ tab.
Proof.
  induction s as [|c s (u & Hs & Hno)].
  - exists 0%nat. split; [done|]. intros r Hr. by destruct r.
  - cbn [strings.TrimRight]. destruct (strings.TrimRight s tab) as [|d p] eqn:Hp.
    + rewrite app_nil_l in Hs. rewrite in_cutset_tab. case_bool_decide as Hc.
      * subst c. exists (S u). split; [by rewrite Hs|].
        intros r Hr. by destruct r.
      * exists u. split; [by rewrite Hs|].
        intros r [(_ & ? & _)|(r' & _ & Hr')]%cons_eq_app_tab; [done|].
        by destruct (app_tab_not_empty r').
    + exists u. split; [by rewrite Hs|].
      intros r [(_ & _ & ?)|(r' & _ & Hr')]%cons_eq_app_tab; [done|].
      by destruct (Hno r').
Qed.

(** X4.  What [ErrorLine] shows of a line is the line without its
    leading and trailing tabs: nothing else is removed, and what is
    shown neither begins nor ends with a tab. *)
Theorem Trim_tabs_only line :
  exists t u,
    line = strings.repeat_nat tab t +:+ strings.Trim line tab +:+ strings.repeat_nat tab u /\
    (forall r, strings.Trim line tab <> tab +:+ r) /\
    (forall r, strings.Trim line tab <> r +:+ tab).
Proof.
  unfold strings.Trim.
  destruct (TrimRight_tabs line) as (u & Hright & Hend).
  destruct (TrimLeft_tabs (strings.TrimRight line tab)) as (t & Hleft & Hbegin).
  exists t, u. split; [|split; [done|]].
  - rewrite Hright at 1. rewrite Hleft at 1. by rewrite app_assoc'.
  - intros r Hr. apply (Hend (strings.repeat_nat tab t +:+ r)).
    rewrite Hleft at 1. by rewrite Hr, app_assoc'.
Qed.

(** X5.  The lines [ErrorLine] counts are the text cut at its newlines:
    joined by newlines again they give the text back, and no line holds
    a newline. *)
Theorem Split_join s sep :
  join_lines sep (strings.Split s sep) = s /\
  Forall (fun line => forall a b, line <> a +:+ String sep b) (strings.Split s sep).
Proof.
  induction s as [|c s [IHj IHl]]; cbn [strings.Split].
  - split; [done|]. constructor; [|done]. intros a b Hab. by destruct a.
  - destruct (Split_cons_inv s sep) as (l & ls & Hs). rewrite Hs in *.
    case_decide as Hc.
    + subst c. split.
      * change (String sep (join_lines sep (l :: ls)) = String sep s). by rewrite IHj.
      * constructor; [|done]. intros a b Hab. by destruct a.
    + inversion_clear IHl as [|? ? Hl Hls]. split.
      * rewrite <-IHj. by destruct ls.
      * constructor; [|done]. intros a b Hab.
        destruct a as [|e a]; injection Hab; intros; subst; [done|].
        by destruct (Hl a b).
Qed.

(** X6.  The lines [GenerateByTmpl] hands to [getTmplErrorLine] are the
    parsed text cut behind its newlines: one after the other they give
    the text back, and they are as many as [strings.Split] counts. *)
Theorem SplitAfter_concat s sep :
  concat_pieces (strings.SplitAfter s sep) = s /\
  length (strings.SplitAfter s sep) = length (strings.Split s sep).
Proof.
  induction s as [|c s [IHc IHn]]; cbn [strings.SplitAfter strings.Split]; [done|].
  case_decide as Hc.
  - split; [|cbn [length]; by rewrite IHn].
    change (String c (concat_pieces (strings.SplitAfter s sep)) = String c s).
    by rewrite IHc.
  - destruct (Split_cons_inv s sep) as (l & ls & Hs). rewrite Hs in *.
    destruct (strings.SplitAfter s sep) as [|p ps]; [done|].
    split; [|done]. rewrite <-IHc. reflexivity.
Qed.

(** * Further properties of the backend dispatcher *)

Section files.

Context `{ds.Types}.
Variable imports_Process : string -> string * option error.
Variable range_order : nat -> gmap string bytes.Buffer -> list (string * bytes.Buffer).

Local Abbreviation files := (files_of imports_Process range_order).

Lemma files_of_nil cl generated i : files cl generated i [] = [].
Proof. reflexivity. Qed.

Lemma files_of_cons cl generated i backend backends :
  files cl generated i (backend :: backends) =
    (artifact imports_Process cl backend <$> range_order i generated)
    ++ files cl generated (S i) backends.
Proof.
  unfold files_of. rewrite imap_cons. cbn [mjoin list_join].
  rewrite Nat.add_0_r. f_equal. f_equal. apply imap_ext.
  intros j b _. cbn [compose]. by rewrite Nat.add_succ_r.
Qed.

Lemma elem_of_files_of cl generated i backends f :
  f ∈ files cl generated i backends <->
  exists j backend output,
    backends !! j = Some backend /\
    output ∈ range_order (i + j) generated /\
    f = artifact imports_Process cl backend output.
Proof.
  revert i. induction backends as [|b backends IH]; intros i.
  - rewrite files_of_nil, elem_of_nil. split; [done|]. by intros (j & ? & ? & ? & _).
  - rewrite files_of_cons, elem_of_app, list_elem_of_fmap, IH. split.
    + intros [(o & -> & Ho)|(j & b' & o & Hj & Ho & ->)].
      * exists 0%nat, b, o. by rewrite Nat.add_0_r.
      * exists (S j), b', o. by rewrite Nat.add_succ_r.
    + intros ([|j] & b' & o & Hj & Ho & ->).
      * left. cbn in Hj. simplify_eq. exists o. by rewrite Nat.add_0_r in Ho.
      * right. exists j, b', o. by rewrite Nat.add_succ_r in Ho.
Qed.

Lemma length_files_of cl generated i backends :
  (forall j m, range_order j m ≡ₚ map_to_list m) ->
  length (files cl generated i backends) = (length backends * size generated)%nat.
Proof.
  intros Hperm. revert i. induction backends as [|b backends IH]; intros i; [done|].
  rewrite files_of_cons, length_app, length_fmap, IH, Hperm, length_map_to_list.
  cbn [length]. lia.
Qed.

End files.

Section dispatch_runs.

Context `{ds.Types}.
Variable GenerateOctopus :
  PkgData -> gmap string bytes.Buffer * option arerror.ErrGeneratorPhases.t.
Variable imports_Process : string -> string * option error.
Variable range_order : nat -> gmap string bytes.Buffer -> list (string * bytes.Buffer).

Local Abbreviation switch := (switch_backend GenerateOctopus).
Local Abbreviation inner := (range_generated imports_Process).
Local Abbreviation outer := (range_backends GenerateOctopus imports_Process range_order).
Local Abbreviation rendered appInfo cl linkObject :=
  (GenerateOctopus (set_LinkedObject linkObject (NewPkgData appInfo cl))).

Implicit Types (cl : ds.RecordPackage) (linkObject : gmap string ds.RecordPackage).
Implicit Types (appInfo backend name : string) (ret : list GenerateFile).

Lemma run_bind_Panic {A B} (f : A -> run B) (m : run A) p :
  result m = Panic p -> m ≫= f = Run (events m) (Panic p).
Proof. intros Hm. unfold mbind, run_bind. by rewrite Hm. Qed.

(** *** Runs of the inner loop *)

Lemma inner_success cl backend generated ret0 ret :
  result (inner cl backend generated ret0) = Ret (inl ret) ->
  ret = ret0 ++ (artifact imports_Process cl backend <$> generated).
Proof.
  revert ret0. induction generated as [|[name data] generated IH]; intros ret0.
  - cbn. intros; simplify_eq. by rewrite app_nil_r.
  - destruct (imports_Process (bytes.Bytes data)).2 as [e|] eqn:Hp.
    + rewrite (inner_cons_fail _ _ _ _ _ _ _ _ Hp). cbn [result].
      by destruct (ErrorLine _ _).
    + rewrite (inner_cons_ok _ _ _ _ _ _ _ Hp). cbn [result]. intros ->%IH.
      by rewrite <-app_assoc.
Qed.

Lemma inner_panic cl backend generated ret0 p :
  result (inner cl backend generated ret0) = Panic p ->
  exists data err,
    CallImportsProcess data ∈ events (inner cl backend generated ret0) /\
    (imports_Process data).2 = Some err /\
    ErrorLine err data = Panic p.
Proof.
  revert ret0. induction generated as [|[name data] generated IH]; intros ret0; [done|].
  destruct (imports_Process (bytes.Bytes data)).2 as [e|] eqn:Hp.
  - rewrite (inner_cons_fail _ _ _ _ _ _ _ _ Hp). cbn [result events]. intros Hpanic.
    exists (bytes.Bytes data), e. split; [apply list_elem_of_here|]. split; [done|].
    destruct (ErrorLine e (bytes.Bytes data)); cbn [mbind outcome_bind] in Hpanic;
      by simplify_eq.
  - rewrite (inner_cons_ok _ _ _ _ _ _ _ Hp). cbn [result events].
    intros (data' & err & Hin & Hfail & Hpanic)%IH.
    exists data', err. split; [by apply list_elem_of_further|done].
Qed.

(** *** Runs of the outer loop *)

Lemma switch_Ret appInfo cl linkObject backend :
  exists sw, result (switch appInfo cl linkObject backend) = Ret sw /\
    (forall generated, sw = inl generated ->
       (backend = "tarantool15" \/ backend = "octopus") /\
       rendered appInfo cl linkObject = (generated, None)) /\
    (forall b params,
       CallGenerateOctopus b params ∈ events (switch appInfo cl linkObject backend) ->
       b = backend /\ (backend = "tarantool15" \/ backend = "octopus") /\
       params = set_LinkedObject linkObject (NewPkgData appInfo cl)) /\
    (forall data, CallImportsProcess data ∉ events (switch appInfo cl linkObject backend)).
Proof.
  destruct (decide (backend = "tarantool15" \/ backend = "octopus")) as [Hb|Hb].
  - rewrite (switch_implemented _ _ _ _ _ Hb). cbv zeta. cbn [result events].
    eexists. split; [done|]. split; [|split].
    + intros generated.
      destruct (rendered appInfo cl linkObject) as [g [e|]]; cbn [fst snd];
        intros; by simplify_eq.
    + intros b params. rewrite !elem_of_cons, elem_of_nil.
      intros [?|[?|[]]]; by simplify_eq.
    + intros data. rewrite !elem_of_cons, elem_of_nil. intros [?|[?|[]]]; by simplify_eq.
  - destruct (decide (backend = "tarantool16" \/ backend = "tarantool2"
                      \/ backend = "postgres")) as [Hn|Hn].
    + rewrite (switch_not_implemented _ _ _ _ _ Hn). cbn [result events].
      eexists. split; [done|]. split; [intros; by simplify_eq|].
      split; [intros b params; by rewrite elem_of_nil|intros data; apply not_elem_of_nil].
    + rewrite switch_unknown by tauto. cbn [result events].
      eexists. split; [done|]. split; [intros; by simplify_eq|].
      split; [intros b params; by rewrite elem_of_nil|intros data; apply not_elem_of_nil].
Qed.

Lemma outer_success appInfo cl linkObject i backends ret0 ret :
  result (outer appInfo cl linkObject i backends ret0) = Ret (inl ret) ->
  Forall (fun backend => backend = "tarantool15" \/ backend = "octopus") backends /\
  (backends <> [] -> (rendered appInfo cl linkObject).2 = None) /\
  ret = ret0 ++ files_of imports_Process range_order cl
                  (rendered appInfo cl linkObject).1 i backends.
Proof.
  revert i ret0. induction backends as [|backend backends IH]; intros i ret0.
  - cbn [range_backends mret run_ret result]. intros; simplify_eq.
    by rewrite files_of_nil, app_nil_r.
  - rewrite outer_cons.
    destruct (switch_Ret appInfo cl linkObject backend) as (sw & Hsw & Hgen & _).
    rewrite (run_bind_Ret _ _ _ Hsw). cbn [result].
    destruct sw as [generated|err']; [|done].
    destruct (Hgen generated eq_refl) as [Himpl Hrend].
    rewrite result_bind.
    destruct (result (inner cl backend (range_order i generated) ret0))
      as [[ret'|err']|p] eqn:Hin; cbn [mbind outcome_bind mret run_ret result]; [|done..].
    intros (Hall & _ & ->)%IH. apply inner_success in Hin as ->.
    rewrite Hrend. cbn [fst snd]. split; [by constructor|]. split; [done|].
    by rewrite files_of_cons, <-app_assoc.
Qed.

Lemma outer_panic appInfo cl linkObject i backends ret0 p :
  result (outer appInfo cl linkObject i backends ret0) = Panic p ->
  exists data err,
    CallImportsProcess data ∈ events (outer appInfo cl linkObject i backends ret0) /\
    (imports_Process data).2 = Some err /\
    ErrorLine err data = Panic p.
Proof.
  revert i ret0. induction backends as [|backend backends IH]; intros i ret0; [done|].
  rewrite outer_cons.
  destruct (switch_Ret appInfo cl linkObject backend) as (sw & Hsw & _).
  rewrite (run_bind_Ret _ _ _ Hsw). cbn [result events].
  destruct sw as [generated|err']; [|done].
  rewrite result_bind, events_bind.
  destruct (result (inner cl backend (range_order i generated) ret0))
    as [[ret'|err']|p'] eqn:Hin; cbn [mbind outcome_bind mret run_ret result]; [|done|].
  - intros (data & err & Hev & Hfail & Hpanic)%IH.
    exists data, err. split; [|done]. rewrite !elem_of_app. auto.
  - intros; simplify_eq.
    destruct (inner_panic _ _ _ _ _ Hin) as (data & err & Hev & Hfail & Hpanic).
    exists data, err. split; [|done]. rewrite !elem_of_app. auto.
Qed.

Lemma outer_calls_params appInfo cl linkObject i backends ret0 b params :
  CallGenerateOctopus b params ∈ events (outer appInfo cl linkObject i backends ret0) ->
  b ∈ backends /\ (b = "tarantool15" \/ b = "octopus") /\
  params = set_LinkedObject linkObject (NewPkgData appInfo cl).
Proof.
  revert i ret0. induction backends as [|backend backends IH]; intros i ret0.
  { cbn. by rewrite elem_of_nil. }
  rewrite outer_cons.
  destruct (switch_Ret appInfo cl linkObject backend) as (sw & Hsw & _ & Hcall & _).
  rewrite events_bind, Hsw. rewrite elem_of_app. intros [Hin|Hin].
  { destruct (Hcall _ _ Hin) as (-> & ? & ?). split; [apply list_elem_of_here|done]. }
  destruct sw as [generated|err']; [|by apply elem_of_nil in Hin].
  rewrite events_bind, elem_of_app in Hin. destruct Hin as [Hin|Hin].
  { by apply inner_calls in Hin. }
  destruct (result (inner _ _ _ _)) as [[ret'|err']|p]; [|by apply elem_of_nil in Hin..].
  destruct (IH _ _ Hin) as (? & ? & ?). split; [by apply list_elem_of_further|done].
Qed.

(** A run that does not end in success is not changed by backends
    behind the ones it saw. *)
Lemma outer_app_stop appInfo cl linkObject i pre post ret0 :
  (forall ret, result (outer appInfo cl linkObject i pre ret0) <> Ret (inl ret)) ->
  outer appInfo cl linkObject i (pre ++ post) ret0 = outer appInfo cl linkObject i pre ret0.
Proof.
  revert i ret0. induction pre as [|backend pre IH]; intros i ret0 Hstop.
  { by destruct (Hstop ret0). }
  cbn [app]. rewrite !outer_cons. rewrite !outer_cons in Hstop.
  destruct (switch_Ret appInfo cl linkObject backend) as (sw & Hsw & _).
  rewrite !(run_bind_Ret _ _ _ Hsw). rewrite (run_bind_Ret _ _ _ Hsw) in Hstop.
  cbn [result] in Hstop. destruct sw as [generated|err']; [|done].
  destruct (result (inner cl backend (range_order i generated) ret0))
    as [[ret'|err']|p] eqn:Hin.
  - rewrite !(run_bind_Ret _ _ _ Hin). rewrite (run_bind_Ret _ _ _ Hin) in Hstop.
    cbn [result] in Hstop. by rewrite (IH _ _ Hstop).
  - by rewrite !(run_bind_Ret _ _ _ Hin).
  - by rewrite !(run_bind_Panic _ _ _ Hin).
Qed.

End dispatch_runs.

Section dispatch_results.

Context `{ds.Types}.
Variable GenerateOctopus :
  PkgData -> gmap string bytes.Buffer * option arerror.ErrGeneratorPhases.t.
Variable imports_Process : string -> string * option error.
Variable range_order : nat -> gmap string bytes.Buffer -> list (string * bytes.Buffer).

Implicit Types (cl : ds.RecordPackage) (linkObject : gmap string ds.RecordPackage).
Implicit Types (appInfo backend : string) (ret : list GenerateFile).

Lemma Generate_inl appInfo cl linkObject ret :
  result (Generate GenerateOctopus imports_Process range_order appInfo cl linkObject)
  = Ret (ret, None) ->
  result (range_backends GenerateOctopus imports_Process range_order
            appInfo cl linkObject 0 (ds.Backends cl) []) = Ret (inl ret).
Proof.
  unfold Generate. rewrite result_bind.
  destruct (result (range_backends _ _ _ _ _ _ _ _ _)) as [[ret'|err']|p];
    cbn [mbind outcome_bind mret run_ret result]; intros; by simplify_eq.
Qed.

(** X7.  When [Generate] succeeds, every declared backend is one of
    [octopus] and [tarantool15], and the files are, backend by backend
    in the order of the declaration and output by output in the order
    of the range, one file for each output of the backend generator:
    [Dir] the package name, [Name] the output key followed by [.go],
    [Backend] the identifier and [Data] what [imports.Process] made of
    the rendered bytes. *)
Theorem Generate_success appInfo cl linkObject ret :
  result (Generate GenerateOctopus imports_Process range_order appInfo cl linkObject)
  = Ret (ret, None) ->
  Forall (fun backend => backend = "tarantool15" \/ backend = "octopus") (ds.Backends cl) /\
  ret = files_of imports_Process range_order cl
          (GenerateOctopus (set_LinkedObject linkObject (NewPkgData appInfo cl))).1
          0 (ds.Backends cl).
Proof.
  intros Hret%Generate_inl. by destruct (outer_success _ _ _ _ _ _ _ _ _ _ Hret) as (? & _ & ->).
Qed.

(** X8.  When [Generate] succeeds it returns as many files as the
    package declares backends times the backend generator has outputs:
    a backend declared twice, or under both of its names, is generated
    once for each mention. *)
Theorem Generate_success_count appInfo cl linkObject ret :
  (forall i m, range_order i m ≡ₚ map_to_list m) ->
  result (Generate GenerateOctopus imports_Process range_order appInfo cl linkObject)
  = Ret (ret, None) ->
  length ret =
    (length (ds.Backends cl)
     * size (GenerateOctopus (set_LinkedObject linkObject (NewPkgData appInfo cl))).1)%nat.
Proof.
  intros Hperm Hret%Generate_inl.
  destruct (outer_success _ _ _ _ _ _ _ _ _ _ Hret) as (_ & _ & ->).
  cbn [app]. by apply length_files_of.
Qed.

(** X9.  The files of one package do not tell the backends apart by
    their path: when [Generate] succeeds, for every file it returns and
    every declared backend there is a returned file tagged with that
    backend that has the same [Dir], the same [Name] and the same
    [Data]. *)
Theorem Generate_backends_share_paths appInfo cl linkObject ret f backend :
  (forall i m, range_order i m ≡ₚ map_to_list m) ->
  result (Generate GenerateOctopus imports_Process range_order appInfo cl linkObject)
  = Ret (ret, None) ->
  f ∈ ret ->
  backend ∈ ds.Backends cl ->
  exists f', f' ∈ ret /\ Backend f' = backend /\
             Dir f' = Dir f /\ Name f' = Name f /\ Data f' = Data f.
Proof.
  intros Hperm Hret%Generate_inl Hf Hb.
  destruct (outer_success _ _ _ _ _ _ _ _ _ _ Hret) as (_ & _ & ->). cbn [app] in *.
  apply elem_of_files_of in Hf as (j & b & output & _ & Hout & ->).
  apply list_elem_of_lookup in Hb as [j' Hj'].
  exists (artifact imports_Process cl backend output). split; [|done].
  apply elem_of_files_of. exists j', backend, output. split; [done|]. split; [|done].
  rewrite Hperm. by rewrite Hperm in Hout.
Qed.

(** X10.  The first failure ends the dispatch: when the loop over a
    front part of the backend list returns an error or panics, so does
    [Generate], with that error or panic, and nothing is logged,
    rendered or formatted for the backends behind. *)
Theorem Generate_first_failure appInfo cl linkObject pre post :
  ds.Backends cl = pre ++ post ->
  let front := range_backends GenerateOctopus imports_Process range_order
                 appInfo cl linkObject 0 pre [] in
  let run := Generate GenerateOctopus imports_Process range_order appInfo cl linkObject in
  (forall err, result front = Ret (inr err) ->
     result run = Ret ([], Some err) /\ events run = events front) /\
  (forall p, result front = Panic p ->
     result run = Panic p /\ events run = events front).
Proof.
  intros Hb. cbv zeta. split.
  - intros err Hfront. unfold Generate.
    rewrite Hb, outer_app_stop by (by rewrite Hfront).
    rewrite (run_bind_Ret _ _ _ Hfront). cbn [result events mret run_ret].
    by rewrite app_nil_r.
  - intros p Hfront. unfold Generate.
    rewrite Hb, outer_app_stop by (by rewrite Hfront).
    by rewrite (run_bind_Panic _ _ _ Hfront).
Qed.

(** X11.  [Generate] panics in one place only: when [imports.Process]
    has rejected a buffer it was given and [ErrorLine] panics on the
    formatter's error and that buffer. *)
Theorem Generate_panic_source appInfo cl linkObject p :
  result (Generate GenerateOctopus imports_Process range_order appInfo cl linkObject)
  = Panic p ->
  exists data err,
    CallImportsProcess data
    ∈ events (Generate GenerateOctopus imports_Process range_order appInfo cl linkObject) /\
    (imports_Process data).2 = Some err /\
    ErrorLine err data = Panic p.
Proof.
  unfold Generate. rewrite result_bind, events_bind.
  destruct (result (range_backends _ _ _ _ _ _ _ _ _)) as [[ret'|err']|p'] eqn:Hout;
    cbn [mbind outcome_bind mret run_ret result]; intros; simplify_eq.
  destruct (outer_panic _ _ _ _ _ _ _ _ _ _ Hout) as (data & err & Hev & Hfail & Hpanic).
  exists data, err. split; [|done]. rewrite elem_of_app. by left.
Qed.

(** X12.  Every call of the backend generator that [Generate] makes is
    for a declared backend that is [octopus] or [tarantool15], and all
    of them get the same parameters: the projection of the package made
    by [NewPkgData], with the application info and the link map that
    [Generate] was given. *)
Theorem Generate_calls appInfo cl linkObject backend params :
  CallGenerateOctopus backend params
  ∈ events (Generate GenerateOctopus imports_Process range_order appInfo cl linkObject) ->
  backend ∈ ds.Backends cl /\
  (backend = "tarantool15" \/ backend = "octopus") /\
  params = set_LinkedObject linkObject (NewPkgData appInfo cl) /\
  AppInfo params = appInfo /\
  LinkedObject params = linkObject /\
  ARPkg params = ds.PackageName (ds.Namespace cl) /\
  ARPkgTitle params = ds.PublicName (ds.Namespace cl).
Proof.
  unfold Generate. rewrite events_bind, elem_of_app. intros [Hin|Hin].
  - destruct (outer_calls_params _ _ _ _ _ _ _ _ _ _ _ Hin) as (? & ? & ->). done.
  - revert Hin. destruct (result (range_backends _ _ _ _ _ _ _ _ _)) as [[?|?]|?];
      cbn [mret run_ret events]; by rewrite elem_of_nil.
Qed.

End dispatch_results.

Lemma Generate_success_witness :
  exists ret,
    result (Generate example_two_outputs example.format_ok example.order "info"
              (example.package ["octopus"; "tarantool15"]) ∅) = Ret (ret, None) /\
    ret = files_of example.format_ok example.order
            (example.package ["octopus"; "tarantool15"])
            {[ "octopus" := example.raw; "mock" := "package mock" ]}
            0 ["octopus"; "tarantool15"].
Proof.
  assert (exists ret,
            result (Generate example_two_outputs example.format_ok example.order "info"
                      (example.package ["octopus"; "tarantool15"]) ∅) = Ret (ret, None))
    as [ret Hrun] by (eexists; vm_compute; reflexivity).
  exists ret. split; [exact Hrun|].
  exact (proj2 (Generate_success example_two_outputs example.format_ok example.order
                  "info" (example.package ["octopus"; "tarantool15"]) ∅ ret Hrun)).
Defined.

Lemma Generate_success_count_witness :
  exists ret,
    result (Generate example_two_outputs example.format_ok example.order "info"
              (example.package ["octopus"; "tarantool15"]) ∅) = Ret (ret, None) /\
    length ret = 4%nat.
Proof.
  assert (exists ret,
            result (Generate example_two_outputs example.format_ok example.order "info"
                      (example.package ["octopus"; "tarantool15"]) ∅) = Ret (ret, None))
    as [ret Hrun] by (eexists; vm_compute; reflexivity).
  exists ret. split; [exact Hrun|].
  apply (Generate_success_count example_two_outputs example.format_ok example.order
           "info" (example.package ["octopus"; "tarantool15"]) ∅ ret).
  - intros i m. reflexivity.
  - exact Hrun.
Defined.

Lemma Generate_backends_share_paths_witness :
  let octopus_go backend :=
    {| Data := example.raw; Name := "octopus.go"; Dir := "gift"; Backend := backend |} in
  exists f', f' ∈ [octopus_go "octopus"; octopus_go "tarantool15"] /\
             Backend f' = "tarantool15" /\
             Dir f' = "gift" /\ Name f' = "octopus.go" /\ Data f' = example.raw.
Proof.
  cbv zeta.
  apply (Generate_backends_share_paths example.octopus example.format_ok example.order
           "info" (example.package ["octopus"; "tarantool15"]) ∅
           [ {| Data := example.raw; Name := "octopus.go"; Dir := "gift";
                Backend := "octopus" |};
             {| Data := example.raw; Name := "octopus.go"; Dir := "gift";
                Backend := "tarantool15" |} ]
           {| Data := example.raw; Name := "octopus.go"; Dir := "gift";
              Backend := "octopus" |}
           "tarantool15").
  - intros i m. reflexivity.
  - vm_compute. reflexivity.
  - apply list_elem_of_here.
  - apply list_elem_of_further, list_elem_of_here.
Defined.

Lemma Generate_first_failure_witness :
  result (Generate example.octopus example.format_ok example.order "info"
            (example.package ["nosuch"; "octopus"]) ∅)
  = Ret ([], Some (FileError (arerror.ErrGeneratorFile.mk "Gift" "nosuch" ""
                                arerror.ErrGeneratorBackendUnknown))) /\
  events (Generate example.octopus example.format_ok example.order "info"
            (example.package ["nosuch"; "octopus"]) ∅) = [].
Proof.
  destruct (Generate_first_failure example.octopus example.format_ok example.order
              "info" (example.package ["nosuch"; "octopus"]) ∅ ["nosuch"] ["octopus"]
              eq_refl) as [Herr _].
  apply (Herr (FileError (arerror.ErrGeneratorFile.mk "Gift" "nosuch" ""
                            arerror.ErrGeneratorBackendUnknown))).
  reflexivity.
Defined.

Lemma Generate_panic_source_witness :
  exists data err,
    CallImportsProcess data
    ∈ events (Generate example.octopus example_format_line1 example.order "info"
                (example.package ["octopus"]) ∅) /\
    (example_format_line1 data).2 = Some err /\
    ErrorLine err data = Panic (IndexOutOfRange (-1) 3).
Proof.
  apply (Generate_panic_source example.octopus example_format_line1 example.order
           "info" (example.package ["octopus"]) ∅ (IndexOutOfRange (-1) 3)).
  vm_compute. reflexivity.
Defined.

Lemma Generate_calls_witness :
  let params := set_LinkedObject ∅ (NewPkgData "info" (example.package ["octopus"])) in
  AppInfo params = "info" /\ ARPkg params = "gift" /\ ARPkgTitle params = "Gift".
Proof.
  cbv zeta.
  destruct (Generate_calls example.octopus example.format_ok example.order
              "info" (example.package ["octopus"]) ∅ "octopus"
              (set_LinkedObject ∅ (NewPkgData "info" (example.package ["octopus"]))))
    as (_ & _ & _ & Hinfo & _ & Hpkg & Htitle).
  - apply list_elem_of_further, list_elem_of_here.
  - split; [exact Hinfo|]. split; [exact Hpkg|exact Htitle].
Defined.

(** * Further properties of the meta path and of the fixture generator *)

Section meta_results.

Context `{ds.Types} `{template.Engine}.
Variable funcs : template.FuncMap.
Variable OctopusTemplateFuncs : template.FuncMap.
Variable MetaTmpl : string.
Variable getTmplErrorLine : list string -> string -> string * option error.
Variable imports_Process : string -> string * option error.


End meta_results.


Section fixture_results.

Context `{ds.Types}.
Variable generateFixture :
  FixturePkgData.t -> gmap string bytes.Buffer * option arerror.ErrGeneratorPhases.t.
Variable imports_Process : string -> string * option error.
Variable range_order : gmap string bytes.Buffer -> list (string * bytes.Buffer).

Local Abbreviation loop := (range_fixture imports_Process).

Lemma range_fixture_cons cl pkgFixture name data generated ret :
  loop cl pkgFixture ((name, data) :: generated) ret =
    match (imports_Process (bytes.Bytes data)).2 with
    | Some err =>
        e ← ErrorLine err (bytes.Bytes data);
        Ret (inr (FileError (arerror.ErrGeneratorFile.mk
                               (ds.PublicName (ds.Namespace cl)) "fixture"
                               (ds.PackageName (ds.Namespace cl) +:+ "_gen.go")
                               (arerror.Underlying e))))
    | None =>
        loop cl pkgFixture generated
          (ret ++ [fixture_file imports_Process cl pkgFixture (name, data)])
    end.
Proof.
  cbn [range_fixture]. unfold fixture_file. cbn [fst snd].
  by destruct (imports_Process (bytes.Bytes data)) as [dataImp [err|]].
Qed.

Lemma range_fixture_inl cl pkgFixture generated ret0 ret :
  loop cl pkgFixture generated ret0 = Ret (inl ret) ->
  ret = ret0 ++ (fixture_file imports_Process cl pkgFixture <$> generated).
Proof.
  revert ret0. induction generated as [|[name data] generated IH]; intros ret0.
  - cbn. intros; simplify_eq. by rewrite app_nil_r.
  - rewrite range_fixture_cons.
    destruct (imports_Process (bytes.Bytes data)).2 as [err|].
    + by destruct (ErrorLine err (bytes.Bytes data)).
    + intros ->%IH. by rewrite <-app_assoc.
Qed.

Lemma range_fixture_inr cl pkgFixture generated ret0 err :
  loop cl pkgFixture generated ret0 = Ret (inr err) ->
  exists e, err = FileError (arerror.ErrGeneratorFile.mk
                               (ds.PublicName (ds.Namespace cl)) "fixture"
                               (ds.PackageName (ds.Namespace cl) +:+ "_gen.go")
                               (arerror.Underlying e)).
Proof.
  revert ret0. induction generated as [|[name data] generated IH]; intros ret0; [done|].
  rewrite range_fixture_cons.
  destruct (imports_Process (bytes.Bytes data)).2 as [formatErr|]; [|apply IH].
  destruct (ErrorLine formatErr (bytes.Bytes data)) as [e|p];
    cbn [mbind outcome_bind]; intros; simplify_eq. by exists e.
Qed.

(** X14.  Whenever [GenerateFixture] returns an error, the file list
    it returns with it is nil and the error carries the public display
    name of the record package; an error of the formatter is reported
    for the backend [fixture] and the file [<package name>_gen.go]. *)
Theorem GenerateFixture_failure appInfo (cl : ds.RecordPackage) pkg pkgFixture ret err :
  GenerateFixture generateFixture imports_Process range_order appInfo cl pkg pkgFixture
  = Ret (ret, Some err) ->
  ret = [] /\
  diagnostic_name err = ds.PublicName (ds.Namespace cl) /\
  forall f, err = FileError f ->
    arerror.ErrGeneratorFile.Backend f = "fixture" /\
    arerror.ErrGeneratorFile.Filename f = ds.PackageName (ds.Namespace cl) +:+ "_gen.go".
Proof.
  unfold GenerateFixture. destruct (generateFixture _) as [generated [renderErr|]].
  - intros; simplify_eq. by repeat split.
  - destruct (loop cl pkgFixture (range_order generated) []) as [[ret'|err']|p] eqn:Hloop;
      cbn [mbind outcome_bind]; intros; simplify_eq.
    destruct (range_fixture_inr _ _ _ _ _ Hloop) as [e ->].
    repeat split; intros; by simplify_eq.
Qed.

(** X15.  When [GenerateFixture] succeeds it returns one file for each
    output of the fixture generator, in the order of the range, and all
    of them have the same path: the directory [pkgFixture] and the name
    [<package name>_gen.go], with no backend tag and whatever the key of
    the output.  The generator was given [pkg] as the package of the
    records, [pkgFixture] as the one of the fixtures and the
    application info. *)
Theorem GenerateFixture_success appInfo (cl : ds.RecordPackage) pkg pkgFixture ret :
  GenerateFixture generateFixture imports_Process range_order appInfo cl pkg pkgFixture
  = Ret (ret, None) ->
  exists params generated,
    generateFixture params = (generated, None) /\
    FixturePkgData.ARPkg params = pkg /\
    FixturePkgData.FixturePkg params = pkgFixture /\
    FixturePkgData.AppInfo params = appInfo /\
    ret = fixture_file imports_Process cl pkgFixture <$> range_order generated /\
    Forall (fun f => Dir f = pkgFixture /\
                     Name f = ds.PackageName (ds.Namespace cl) +:+ "_gen.go" /\
                     Backend f = "") ret.
Proof.
  unfold GenerateFixture.
  destruct (generateFixture _) as [generated [renderErr|]] eqn:Hgen; [done|].
  destruct (loop cl pkgFixture (range_order generated) []) as [[ret'|err']|p] eqn:Hloop;
    cbn [mbind outcome_bind]; intros; simplify_eq.
  apply range_fixture_inl in Hloop as ->. cbn [app].
  eexists _, generated. split; [exact Hgen|]. repeat split.
  apply Forall_fmap, Forall_true. by intros output.
Qed.

End fixture_results.

Lemma GenerateFixture_failure_witness :
  let err := FileError (arerror.ErrGeneratorFile.mk "Gift" "fixture" "gift_gen.go"
                          (arerror.Underlying
                             (errors.Wrap (errors.New "2:1: expected declaration")
                                (String nl "a" +:+ String nl "b" +:+ String nl "^^^^^"
                                 +:+ String nl "c")))) in
  diagnostic_name err = "Gift".
Proof.
  cbv zeta.
  apply (@GenerateFixture_failure example.types
           (fun _ => ({[ "fixture" := example.raw ]}, None)) example.format_fails map_to_list
           "info" (example.package []) "gift" "fixture" []
           (FileError (arerror.ErrGeneratorFile.mk "Gift" "fixture" "gift_gen.go"
                         (arerror.Underlying
                            (errors.Wrap (errors.New "2:1: expected declaration")
                               (String nl "a" +:+ String nl "b" +:+ String nl "^^^^^"
                                +:+ String nl "c")))))).
  vm_compute. reflexivity.
Defined.

Lemma GenerateFixture_success_witness :
  Forall (fun f => Dir f = "fixture" /\ Name f = "gift" +:+ "_gen.go" /\ Backend f = "")
    [ {| Data := "package store"; Name := "gift_gen.go"; Dir := "fixture"; Backend := "" |};
      {| Data := example.raw; Name := "gift_gen.go"; Dir := "fixture"; Backend := "" |} ].
Proof.
  destruct (@GenerateFixture_success example.types example_fixture example.format_ok
              map_to_list "info" (example.package []) "gift" "fixture"
              [ {| Data := "package store"; Name := "gift_gen.go"; Dir := "fixture";
                   Backend := "" |};
                {| Data := example.raw; Name := "gift_gen.go"; Dir := "fixture";
                   Backend := "" |} ])
    as (params & generated & _ & _ & _ & _ & _ & Hall).
  - vm_compute. reflexivity.
  - exact Hall.
Defined.
